(** * MolBERT fine-tuning glue: a shallow embedding

    The development follows [molbert/models/finetune.py]
    ([FinetuneSmilesMolbertModel]) and [molbert/apps/base.py]
    ([BaseMolbertApp]).  Python objects that the code mutates are threaded
    as explicit state; a call that can raise returns a [result]; the
    libraries the code delegates to (torch, torchmetrics, os, json, the
    base model driver) are interfaces, instantiated further down by small
    executable stand-ins so that every definition can be run. *)

From Stdlib Require Import ZArith Ascii String Floats.PrimFloat.
From stdpp Require Import base gmap strings list.

Local Open Scope string_scope.
Local Open Scope list_scope.

(** ** Python values, exceptions and the state-and-error monad *)

(** The scalars that reach this code through the argument namespace. *)
Inductive pyval :=
| PyNone
| PyBool (b : bool)
| PyInt (n : Z)
| PyFloat (x : float)
| PyStr (s : string).

(** Python truth value: [None], [False], [0], [0.0] and [''] are falsy. *)
Definition truthy (v : pyval) : bool :=
  match v with
  | PyNone => false
  | PyBool b => b
  | PyInt n => negb (n =? 0)%Z
  | PyFloat x => negb (PrimFloat.eqb x 0%float)
  | PyStr s => negb (String.eqb s "")
  end.

(** The exceptions that the code and its libraries raise.  All of them
    derive from [Exception], so an [except Exception] clause catches any
    [exn].  Signals that reach a computation from outside
    ([KeyboardInterrupt], [SystemExit]) are not part of the model. *)
Inductive exn :=
| AttributeError (name : string)
| KeyError (key : string)
| RuntimeError (msg : string)
| TypeError (msg : string)
| ValueError (msg : string)
| IndexError (msg : string)
| OSError (msg : string)
| ArgumentError (msg : string)
| NotImplementedError.

Inductive result (A : Type) :=
| Ok (a : A)
| Raise (e : exn).
Arguments Ok {A} a.
Arguments Raise {A} e.

#[export] Instance result_ret : MRet result := @Ok.
#[export] Instance result_bind : MBind result :=
  fun A B k m => match m with Ok a => k a | Raise e => Raise e end.

(** A computation on a mutable object of type [S].  What was mutated before
    an exception stays mutated, so the state is returned on both outcomes. *)
Definition St (S A : Type) : Type := S -> result A * S.

#[export] Instance St_ret {S} : MRet (St S) := fun A a s => (Ok a, s).
#[export] Instance St_bind {S} : MBind (St S) :=
  fun A B k m s =>
    match m s with
    | (Ok a, s') => k a s'
    | (Raise e, s') => (Raise e, s')
    end.

Definition gets {S A} (f : S -> A) : St S A := fun s => (Ok (f s), s).
Definition modify {S} (f : S -> S) : St S unit := fun s => (Ok tt, f s).
Definition lift {S A} (r : result A) : St S A := fun s => (r, s).

(** ** Ordered dictionaries

    A [dict] whose order is observable (it is iterated, or dumped to a
    file) is an association list in insertion order; [d[k] = v] keeps the
    position of a key that is already there. *)
Fixpoint dict_set {V} (d : list (string * V)) (k : string) (v : V) : list (string * V) :=
  match d with
  | [] => [(k, v)]
  | (k', v') :: d' =>
      if String.eqb k' k then (k', v) :: d' else (k', v') :: dict_set d' k v
  end.

Fixpoint dict_get {V} (d : list (string * V)) (k : string) : option V :=
  match d with
  | [] => None
  | (k', v') :: d' => if String.eqb k' k then Some v' else dict_get d' k
  end.

(** [{**a, **b}]: the items of [b] are stored into [a] one by one. *)
Definition dict_update {V} (a b : list (string * V)) : list (string * V) :=
  fold_left (fun d kv => dict_set d (fst kv) (snd kv)) b a.

(** ** Hyperparameters and configuration (finetune.py, lines 24-59) *)

Module HParams.
(** [self.hparams]: the argument namespace the model was built from.
    [vocab_size = None] says the namespace has no such attribute. *)
Record t := mk {
  vocab_size : option pyval;
  tiny : bool;
  max_position_embeddings : Z;
  mode : string;
  output_size : Z;
  label_column : string;
  max_seq_length : Z;
  train_file : string;
  valid_file : string;
  test_file : string;
  num_workers : Z
}.

Definition set_vocab_size (v : pyval) (h : t) : t :=
  mk (Some v) (tiny h) (max_position_embeddings h) (mode h) (output_size h)
     (label_column h) (max_seq_length h) (train_file h) (valid_file h)
     (test_file h) (num_workers h).

(** [self.hparams.vocab_size] as an expression. *)
Definition get_vocab_size : St t pyval :=
  fun h => (match vocab_size h with
            | Some v => Ok v
            | None => Raise (AttributeError "vocab_size")
            end, h).
End HParams.

Module BertConfigExtras.
(** The keyword arguments [get_config] passes to [BertConfigExtras]. *)
Record t := mk {
  vocab_size_or_config_json_file : pyval;
  hidden_size : Z;
  num_hidden_layers : Z;
  num_attention_heads : Z;
  intermediate_size : Z;
  max_position_embeddings : Z;
  mode : string;
  output_size : Z;
  label_column : string
}.
End BertConfigExtras.

(** [not hasattr(self.hparams, 'vocab_size') or not self.hparams.vocab_size] *)
Definition vocab_size_unset (h : HParams.t) : bool :=
  match HParams.vocab_size h with
  | None => true
  | Some v => negb (truthy v)
  end.

Definition get_config : St HParams.t BertConfigExtras.t :=
  unset ← gets vocab_size_unset;
  (if unset : bool then modify (HParams.set_vocab_size (PyInt 42)) else mret tt);;
  tiny ← gets HParams.tiny;
  vocab ← HParams.get_vocab_size;
  h ← gets id;
  if tiny : bool then
    mret (BertConfigExtras.mk vocab 16 2 2 32
            (HParams.max_position_embeddings h) (HParams.mode h)
            (HParams.output_size h) (HParams.label_column h))
  else
    mret (BertConfigExtras.mk vocab 768 12 12 3072
            (HParams.max_position_embeddings h) (HParams.mode h)
            (HParams.output_size h) (HParams.label_column h)).

Module FinetuneTask.
Record t := mk {
  name : string;
  config : BertConfigExtras.t
}.
End FinetuneTask.

Definition get_tasks (config : BertConfigExtras.t) : list FinetuneTask.t :=
  [FinetuneTask.mk "finetune" config].

(** ** Dataset construction (finetune.py, lines 61-92) *)

Module Featurizer.
(** What [SmilesIndexFeaturizer.bert_smiles_index_featurizer(n)] builds. *)
Record t := mk { max_length : Z }.
End Featurizer.

(** Featurizers are objects: a dataset holds a reference, which is the
    position of the featurizer in the list of those built so far. *)
Definition bert_smiles_index_featurizer (max_length : Z) : St (list Featurizer.t) nat :=
  fun heap => (Ok (List.length heap), heap ++ [Featurizer.mk max_length]).

Module Dataset.
(** A [BertFinetuneSmilesDataset(...)] call, by its keyword arguments.
    [inference_mode = None]: the call does not pass the argument. *)
Record t := mk {
  input_path : string;
  featurizer : nat;
  single_seq_len : Z;
  total_seq_len : Z;
  label_column : string;
  is_same : bool;
  inference_mode : option bool
}.
End Dataset.

(** Modelled from the spec: the default of [inference_mode] in the
    constructor of [BertFinetuneSmilesDataset] (molbert/datasets/finetune.py
    is not among the sources); the spec has a partition built without the
    argument "built without inference mode". *)
Definition inference_mode_default : bool := false.

Definition in_inference_mode (d : Dataset.t) : bool :=
  default inference_mode_default (Dataset.inference_mode d).

Module Datasets.
(** The dictionary [{'train': _, 'valid': _, 'test': _}]. *)
Record t := mk {
  train : Dataset.t;
  valid : Dataset.t;
  test : Dataset.t
}.
End Datasets.

Definition load_datasets (h : HParams.t) : St (list Featurizer.t) Datasets.t :=
  featurizer ← bert_smiles_index_featurizer (HParams.max_seq_length h);
  let train_dataset :=
    Dataset.mk (HParams.train_file h) featurizer
      (HParams.max_seq_length h) (HParams.max_seq_length h)
      (HParams.label_column h) false None in
  let validation_dataset :=
    Dataset.mk (HParams.valid_file h) featurizer
      (HParams.max_seq_length h) (HParams.max_seq_length h)
      (HParams.label_column h) false None in
  let test_dataset :=
    Dataset.mk (HParams.test_file h) featurizer
      (HParams.max_seq_length h) (HParams.max_seq_length h)
      (HParams.label_column h) false (Some true) in
  mret (Datasets.mk train_dataset validation_dataset test_dataset).

(** ** The test data loader (finetune.py, lines 176-179) *)

Module DataLoader.
(** A [MolbertDataLoader(dataset, batch_size=_, num_workers=_)] call. *)
Record t := mk {
  dataset : Dataset.t;
  batch_size : nat;
  num_workers : Z
}.
End DataLoader.

Definition test_dataloader (datasets : Datasets.t) (h : HParams.t) : DataLoader.t :=
  let dataset := Datasets.test datasets in
  DataLoader.mk dataset 1024 (HParams.num_workers h).

(** Modelled from the spec: how a [MolbertDataLoader] groups examples into
    batches (molbert/datasets/dataloading.py is not among the sources).  The
    spec has [test_dataloader] return a [DataLoader] with a batch of 1024
    that holds the whole of a smaller test set.  This is the batching of a
    [DataLoader] that is given [batch_size] and neither [shuffle] nor
    [drop_last]: the indices are walked in order, a batch is yielded each
    time [batch_size] of them are collected, and what is left at the end is
    yielded as a last batch. *)
Fixpoint batch_sampler (batch_size : nat) (sampler batch : list nat) : list (list nat) :=
  match sampler with
  | [] => if (0 <? List.length batch)%nat then [batch] else []
  | idx :: sampler' =>
      let batch := batch ++ [idx] in
      if (List.length batch =? batch_size)%nat
      then batch :: batch_sampler batch_size sampler' []
      else batch_sampler batch_size sampler' batch
  end.

(** The batches, as lists of example indices, that a loader yields over a
    dataset of [n] examples. *)
Definition batches (loader : DataLoader.t) (n : nat) : list (list nat) :=
  batch_sampler (DataLoader.batch_size loader) (seq 0 n) [].

(** ** Application bootstrap (base.py, lines 36-81) *)

Module Namespace.
(** The parsed arguments, by the attributes [run] reads. *)
Record t := mk {
  seed : Z;
  default_root_dir : pyval;
  min_epochs : Z;
  max_epochs : Z;
  val_check_interval : pyval;
  limit_val_batches : pyval;
  gpus : Z;
  strategy : pyval;
  precision : pyval;
  num_nodes : Z;
  accumulate_grad_batches : Z;
  fast_dev_run : bool;
  wandb : bool;
  resume_from_checkpoint : option string
}.
End Namespace.

Inductive callback :=
| LearningRateMonitor
| ModelCheckpoint (monitor : string) (verbose save_last : bool).

Inductive pl_logger :=
| WandbLogger.

Module Trainer.
(** A [Trainer(...)] call, by its keyword arguments. *)
Record t := mk {
  default_root_dir : pyval;
  min_epochs : Z;
  max_epochs : Z;
  val_check_interval : pyval;
  limit_val_batches : pyval;
  devices : pyval;
  strategy : pyval;
  precision : pyval;
  num_nodes : Z;
  accumulate_grad_batches : Z;
  fast_dev_run : bool;
  callbacks : list callback;
  logger : option pl_logger
}.
End Trainer.

(** What the bootstrap delegates to: the argument parser and the training
    loop. *)
Class Lightning (model : Type) := {
  parser : Type;
  get_default_parser : parser;
  parser_parse_args : parser -> option (list string) -> result Namespace.t;
  trainer_fit : Trainer.t -> model -> option string -> result unit
}.

(** The two hooks a concrete application overrides. *)
Class MolbertApp (model : Type) `{Lightning model} := {
  get_model : Namespace.t -> result model;
  add_parser_arguments : parser -> result parser
}.

(** [BaseMolbertApp] itself leaves both unimplemented. *)
Definition BaseMolbertApp (model : Type) `{Lightning model} : MolbertApp model :=
  {| get_model := fun _ => Raise NotImplementedError;
     add_parser_arguments := fun _ => Raise NotImplementedError |}.

Module World.
(** What [run] changes outside of its result: the seed of the random
    number generators and the training runs started. *)
Record t (model : Type) := mk {
  rng_seed : option Z;
  fitted : list (Trainer.t * model * option string)
}.
Arguments mk {model} _ _.
Arguments rng_seed {model} _.
Arguments fitted {model} _.
End World.

Section App.
Context {model : Type} `{L : Lightning model} `{App : !MolbertApp model}.

Definition parse_args (args : option (list string)) : result Namespace.t :=
  let parser := get_default_parser in
  parser ← add_parser_arguments parser;
  parser_parse_args parser args.

Definition seed_everything (seed : Z) : St (World.t model) unit :=
  modify (fun w => World.mk (Some seed) (World.fitted w)).

Definition fit (trainer : Trainer.t) (m : model) (ckpt_path : option string)
  : St (World.t model) unit :=
  fun w =>
    (trainer_fit trainer m ckpt_path,
     World.mk (World.rng_seed w) (World.fitted w ++ [(trainer, m, ckpt_path)])).

(** The [Trainer(...)] expression of [run] (lines 50-64). *)
Definition make_trainer (args : Namespace.t) : Trainer.t :=
  let checkpoint_callback := ModelCheckpoint "valid_loss" true true in
  let lr_logger := LearningRateMonitor in
  Trainer.mk
    (Namespace.default_root_dir args)
    (Namespace.min_epochs args)
    (Namespace.max_epochs args)
    (Namespace.val_check_interval args)
    (Namespace.limit_val_batches args)
    (if (Namespace.gpus args =? 0)%Z then PyStr "auto" else PyInt (Namespace.gpus args))
    (Namespace.strategy args)
    (Namespace.precision args)
    (Namespace.num_nodes args)
    (Namespace.accumulate_grad_batches args)
    (Namespace.fast_dev_run args)
    [lr_logger; checkpoint_callback]
    (if Namespace.wandb args then Some WandbLogger else None).

(** [seed_everything] and the constructors of lines 44-64 are taken to
    return; a run that one of them ends has stopped before [get_model],
    with no training started. *)
Definition run (args : option (list string)) : St (World.t model) Trainer.t :=
  args ← lift (parse_args args);
  seed_everything (Namespace.seed args);;
  let trainer := make_trainer args in
  m ← lift (get_model args);
  fit trainer m (Namespace.resume_from_checkpoint args);;
  mret trainer.

End App.

(** ** Tensors and metrics: what the model delegates to *)

(** [torch].  The two list operations are given on a non-empty list; the
    empty list is handled by [torch_cat] and [torch_stack] below. *)
Class Torch := {
  tensor : Type;
  cat_tensors : tensor -> list tensor -> result tensor;
  stack_tensors : tensor -> list tensor -> result tensor;
  torch_sum : tensor -> tensor;
  (** [nn.Softmax(dim=1)(x)] *)
  softmax_dim1 : tensor -> result tensor;
  (** [torch.argmax(x, dim=1).squeeze()] *)
  argmax_dim1_squeeze : tensor -> result tensor;
  (** [x[:, 1]] *)
  select_column_1 : tensor -> result tensor;
  (** [x.long().squeeze()] *)
  long_squeeze : tensor -> result tensor;
  (** [x.item()] *)
  item : tensor -> result float
}.

(** [torchmetrics]: each field is a metric built, moved to the device of
    the predictions and applied to (predictions, target). *)
Class TorchMetrics `{Torch} := {
  AUROC_binary : tensor -> tensor -> result tensor;
  AveragePrecision_binary : tensor -> tensor -> result tensor;
  Accuracy_binary : tensor -> tensor -> result tensor;
  F1Score_binary : tensor -> tensor -> result tensor;
  MeanAbsoluteError : tensor -> tensor -> result tensor;
  (** the argument is [squared] *)
  MeanSquaredError : bool -> tensor -> tensor -> result tensor;
  R2Score : tensor -> tensor -> result tensor
}.

(** The base class [MolbertModel]: the forward pass and the losses. *)
Class MolbertModel `{Torch} := {
  batch_inputs : Type;
  forward : batch_inputs -> result (gmap string tensor);
  evaluate_losses :
    gmap string tensor -> gmap string tensor -> result (list (string * tensor))
}.

(** [os.path] and [open]. [open_error p] is the error raised by
    [open(p, 'w')], if any. *)
Class OS := {
  os_path_dirname : string -> string;
  os_path_join : string -> string -> string;
  open_error : string -> option exn
}.

(** What a file holds: nothing yet, or the text that
    [json.dump(obj, f, indent=indent)] writes. *)
Inductive file_content :=
| EmptyFile
| JsonDump (obj : list (string * float)) (indent : nat).

Section Model.
Context `{T : Torch} `{TM : !TorchMetrics} `{MM : !MolbertModel} `{Os : !OS}.

(** [torch.cat(ts)] and [torch.stack(ts)]: both refuse an empty list. *)
Definition torch_cat (ts : list tensor) : result tensor :=
  match ts with
  | [] => Raise (RuntimeError "torch.cat(): expected a non-empty list of Tensors")
  | t :: ts' => cat_tensors t ts'
  end.

Definition torch_stack (ts : list tensor) : result tensor :=
  match ts with
  | [] => Raise (RuntimeError "stack expects a non-empty TensorList")
  | t :: ts' => stack_tensors t ts'
  end.

(** [d[k]] on a dictionary keyed by task name. *)
Definition getitem (d : gmap string tensor) (k : string) : result tensor :=
  match d !! k with
  | Some v => Ok v
  | None => Raise (KeyError k)
  end.

(** *** evaluate_metrics (lines 94-130) *)

Definition np_nan : float := nan.

(** The dictionary [metrics] of lines 106-119, after the conversions of
    lines 96-104: metric names with their thunks, in insertion order. *)
Definition metrics_table (mode : string) (batch_labels batch_predictions : tensor)
  : result (list (string * (unit -> result tensor))) :=
  if String.eqb mode "classification" then
    probs ← softmax_dim1 batch_predictions;
    preds ← argmax_dim1_squeeze probs;
    probs_of_positive_class ← select_column_1 probs;
    batch_labels ← long_squeeze batch_labels;
    mret [("AUROC", fun _ : unit => AUROC_binary probs_of_positive_class batch_labels);
          ("AveragePrecision",
            fun _ => AveragePrecision_binary probs_of_positive_class batch_labels);
          ("Accuracy", fun _ => Accuracy_binary preds batch_labels);
          ("F1", fun _ => F1Score_binary preds batch_labels)]
  else
    let preds := batch_predictions in
    mret [("MAE", fun _ : unit => MeanAbsoluteError preds batch_labels);
          ("RMSE", fun _ => MeanSquaredError false preds batch_labels);
          ("MSE", fun _ => MeanSquaredError true preds batch_labels);
          ("R2", fun _ => R2Score preds batch_labels)].

(** The loop of lines 122-128: [callable_metric().item()] under
    [try], with [except Exception] storing NaN (after two log lines). *)
Fixpoint metrics_loop (metrics : list (string * (unit -> result tensor)))
    (out : list (string * float)) : list (string * float) :=
  match metrics with
  | [] => out
  | (name, callable_metric) :: metrics' =>
      match callable_metric tt ≫= item with
      | Ok v => metrics_loop metrics' (dict_set out name v)
      | Raise e => metrics_loop metrics' (dict_set out name np_nan)
      end
  end.

(** What the loop stores for a metric whose computation ended in [r]. *)
Definition recorded (r : result float) : float :=
  match r with
  | Ok v => v
  | Raise _ => np_nan
  end.

Definition evaluate_metrics (mode : string) (batch_labels batch_predictions : tensor)
  : result (list (string * float)) :=
  metrics ← metrics_table mode batch_labels batch_predictions;
  mret (metrics_loop metrics []).

(** *** The model object and the test hooks (lines 132-174) *)

(** [dict(predictions=y_hat, labels=batch_labels)] *)
Record Outputs := {
  predictions : gmap string tensor;
  labels : gmap string tensor
}.

Inductive log_entry :=
| LogMetrics (d : list (string * float))
| LogTensors (d : list (string * tensor)).

(** The model instance with what it reaches: its hyperparameters, the
    accumulator, [self.trainer.ckpt_path], the dictionaries handed to
    [self.log_dict], and the files. *)
Record Model := {
  hparams : HParams.t;
  test_step_outputs : list Outputs;
  trainer_ckpt_path : option string;
  logged : list log_entry;
  files : gmap string file_content
}.

Definition set_test_step_outputs (f : list Outputs -> list Outputs) (m : Model) : Model :=
  Build_Model (hparams m) (f (test_step_outputs m)) (trainer_ckpt_path m)
    (logged m) (files m).

Definition set_logged (f : list log_entry -> list log_entry) (m : Model) : Model :=
  Build_Model (hparams m) (test_step_outputs m) (trainer_ckpt_path m)
    (f (logged m)) (files m).

Definition set_files (f : gmap string file_content -> gmap string file_content)
    (m : Model) : Model :=
  Build_Model (hparams m) (test_step_outputs m) (trainer_ckpt_path m)
    (logged m) (f (files m)).

Definition log_dict (d : log_entry) : St Model unit :=
  modify (set_logged (fun l => l ++ [d])).

(** [os.path.dirname(self.trainer.ckpt_path)]; the path is [None] when no
    checkpoint is active. *)
Definition dirname_of (p : option string) : result string :=
  match p with
  | Some p => Ok (os_path_dirname p)
  | None => Raise (TypeError "expected str, bytes or os.PathLike object, not NoneType")
  end.

(** [open(path, 'w')]: the file is created or emptied. *)
Definition open_w (path : string) : St Model unit :=
  fun m =>
    match open_error path with
    | Some e => (Raise e, m)
    | None => (Ok tt, set_files (<[path := EmptyFile]>) m)
    end.

Definition json_dump (obj : list (string * float)) (path : string) (indent : nat)
  : St Model unit :=
  modify (set_files (<[path := JsonDump obj indent]>)).

Definition test_step (batch : (batch_inputs * gmap string tensor) * tensor)
    (batch_idx : Z) : St Model Outputs :=
  let '((batch_inputs, batch_labels), _) := batch in
  y_hat ← lift (forward batch_inputs);
  let outputs := Build_Outputs y_hat batch_labels in
  modify (set_test_step_outputs (fun l => l ++ [outputs]));;
  mret outputs.

(** [{'loss': _, 'metrics': _, 'test_loss': _, 'log': _}] *)
Record Summary := {
  loss : tensor;
  metrics : list (string * float);
  test_loss : tensor;
  log : list (string * tensor)
}.

(** The two [logger.info] lines (167-168) change nothing that is kept
    here. *)
Definition on_test_epoch_end : St Model Summary :=
  outputs ← gets test_step_outputs;
  preds ← lift (mapM (fun out => getitem (predictions out) "finetune") outputs);
  all_predictions ← lift (torch_cat preds);
  let all_predictions_dict : gmap string tensor := {["finetune" := all_predictions]} in
  labs ← lift (mapM (fun out => getitem (labels out) "finetune") outputs);
  all_labels ← lift (torch_cat labs);
  let all_labels_dict : gmap string tensor := {["finetune" := all_labels]} in
  losses ← lift (evaluate_losses all_labels_dict all_predictions_dict);
  stacked ← lift (torch_stack (map snd losses));
  let loss := torch_sum stacked in
  finetune_labels ← lift (getitem all_labels_dict "finetune");
  finetune_predictions ← lift (getitem all_predictions_dict "finetune");
  mode ← gets (fun m => HParams.mode (hparams m));
  metrics ← lift (evaluate_metrics mode finetune_labels finetune_predictions);
  log_dict (LogMetrics metrics);;
  let tensorboard_logs := dict_update [("test_loss", loss)] losses in
  ckpt_path ← gets trainer_ckpt_path;
  dir ← lift (dirname_of ckpt_path);
  let metrics_path := os_path_join dir "metrics.json" in
  open_w metrics_path;;
  json_dump metrics metrics_path 4;;
  log_dict (LogTensors tensorboard_logs);;
  modify (set_test_step_outputs (fun _ => []));;
  mret (Build_Summary loss metrics loss tensorboard_logs).

(** One evaluation pass as the trainer drives it: [test_step] on every
    batch in turn. *)
Fixpoint test_steps (batches : list ((batch_inputs * gmap string tensor) * tensor))
    (batch_idx : Z) : St Model (list Outputs) :=
  match batches with
  | [] => mret []
  | batch :: batches' =>
      out ← test_step batch batch_idx;
      outs ← test_steps batches' (batch_idx + 1)%Z;
      mret (out :: outs)
  end.

End Model.

(** ** Reading metrics.json back *)

(** [json.load(open(path))] on the files of the model.  What [json.dump]
    wrote for a dictionary from strings to floats is read back as a
    dictionary with the same keys in the same order: a finite float is
    printed by [repr], the shortest text that reads back as the same
    double, and NaN and the infinities are printed as [NaN], [Infinity]
    and [-Infinity], which [json.load] accepts.  An empty file is no JSON
    document ([JSONDecodeError] is a [ValueError]). *)
Definition json_load_file (files : gmap string file_content) (path : string)
  : result (list (string * float)) :=
  match files !! path with
  | Some (JsonDump obj _) => Ok obj
  | Some EmptyFile => Raise (ValueError "Expecting value: line 1 column 1 (char 0)")
  | None => Raise (OSError "No such file or directory")
  end.

(** [a == b] on two dictionaries of floats that share no value object, as
    a parsed dictionary and the one in memory do: they have the same number
    of items, and every key of [a] is a key of [b] whose value is [==] to
    that of [a].  On floats [==] is the comparison of IEEE 754, under which
    NaN is equal to nothing, itself included. *)
Definition py_dict_eq (a b : list (string * float)) : bool :=
  (List.length a =? List.length b)%nat &&
  forallb (fun kv => match dict_get b kv.1 with
                     | Some v => PrimFloat.eqb kv.2 v
                     | None => false
                     end) a.

(** ** Loading weights from a checkpoint (base.py, lines 20-34) *)

(** What a checkpoint file holds under a key: a state dictionary
    (parameter name to tensor) or something else. *)
Inductive checkpoint_value `{Torch} :=
| StateDict (sd : gmap string tensor)
| Meta (v : pyval).

(** [torch.load], and whether a parameter and the tensor offered for it
    have the same size. *)
Class TorchIO `{Torch} := {
  torch_load : string -> result (gmap string checkpoint_value);
  same_size : tensor -> tensor -> bool
}.

Section Weights.
Context `{T : Torch} `{IO : !TorchIO}.

(** What [load_state_dict] leaves in the parameter [k]: the tensor of the
    checkpoint if it has one of the same size, the old value otherwise. *)
Definition load_entry (sd : gmap string tensor) (k : string) (param : tensor) : tensor :=
  match sd !! k with
  | Some input_param => if same_size param input_param then input_param else param
  | None => param
  end.

(** The parameters for which the checkpoint has a tensor of another size. *)
Definition size_mismatches (sd params : gmap string tensor) : list (string * tensor) :=
  List.filter
    (fun kp => match sd !! kp.1 with
               | Some input_param => negb (same_size kp.2 input_param)
               | None => false
               end)
    (map_to_list params).

(** [model.load_state_dict(sd, strict=False)] on a model given by its
    parameters: keys of the checkpoint that the model does not have and
    parameters that the checkpoint does not have are passed over; a size
    mismatch is reported once the other parameters have been copied. *)
Definition load_state_dict (sd : gmap string tensor) : St (gmap string tensor) unit :=
  fun params =>
    (match size_mismatches sd params with
     | [] => Ok tt
     | _ :: _ => Raise (RuntimeError "Error(s) in loading state_dict: size mismatch")
     end,
     map_imap (fun k param => Some (load_entry sd k param)) params).

(** [checkpoint['state_dict']], which has to be a dictionary. *)
Definition checkpoint_state_dict (checkpoint : gmap string checkpoint_value)
  : result (gmap string tensor) :=
  match checkpoint !! "state_dict" with
  | Some (StateDict sd) => Ok sd
  | Some (Meta _) => Raise (TypeError "Expected state_dict to be dict-like")
  | None => Raise (KeyError "state_dict")
  end.

(** The model is returned after it has been updated in place. *)
Definition load_model_weights (checkpoint_file : string)
  : St (gmap string tensor) (gmap string tensor) :=
  checkpoint ← lift (torch_load checkpoint_file);
  state_dict ← lift (checkpoint_state_dict checkpoint);
  load_state_dict state_dict;;
  gets id.

End Weights.

(** ** Executable stand-ins for the interfaces

    One-dimensional tensors of floats, used to run the definitions above
    on concrete inputs. *)

Module Ref.

Definition fsum (l : list float) : float := fold_right PrimFloat.add 0%float l.
Definition fcount (l : list float) : float :=
  fold_right (fun _ n => PrimFloat.add n 1%float) 0%float l.
Definition fmean (l : list float) : float := PrimFloat.div (fsum l) (fcount l).

Fixpoint zip_with_float (f : float -> float -> float) (a b : list float) : list float :=
  match a, b with
  | x :: a', y :: b' => f x y :: zip_with_float f a' b'
  | _, _ => []
  end.

Definition same_shape (a b : list float) : bool :=
  (List.length a =? List.length b)%nat.

Definition no_dim_1 : exn :=
  IndexError "Dimension out of range (expected to be in range of [-1, 0], but got 1)".

#[export] Instance torch : Torch := {|
  tensor := list float;
  cat_tensors t ts := Ok (t ++ List.concat ts);
  stack_tensors t ts := Ok (t ++ List.concat ts);
  torch_sum t := [fsum t];
  softmax_dim1 _ := Raise no_dim_1;
  argmax_dim1_squeeze _ := Raise no_dim_1;
  select_column_1 _ := Raise (IndexError "too many indices for tensor of dimension 1");
  long_squeeze t := Ok t;
  item t :=
    match t with
    | [x] => Ok x
    | _ => Raise (RuntimeError "a Tensor with several elements cannot be converted to Scalar")
    end
|}.

Definition elementwise (f : float -> float -> float) (preds target : list float)
  : result (list float) :=
  if same_shape preds target then Ok (zip_with_float f preds target)
  else Raise (RuntimeError "Predictions and targets are expected to have the same shape").

Definition abs_error (p t : float) : float := PrimFloat.abs (PrimFloat.sub p t).
Definition sq_error (p t : float) : float :=
  PrimFloat.mul (PrimFloat.sub p t) (PrimFloat.sub p t).

Definition r2_score (preds target : list float) : result (list float) :=
  if (List.length preds <? 2)%nat
  then Raise (ValueError "Needs at least two samples to calculate r2 score.")
  else
    res ← elementwise sq_error preds target;
    let mean := fmean target in
    let tot := fsum (map (fun t => sq_error t mean) target) in
    Ok [PrimFloat.sub 1%float (PrimFloat.div (fsum res) tot)].

Definition binary_only : exn :=
  ValueError "Expected argument `preds` to be a tensor of probabilities or labels".

#[export] Instance torchmetrics : TorchMetrics := {|
  AUROC_binary _ _ := Raise binary_only;
  AveragePrecision_binary _ _ := Raise binary_only;
  Accuracy_binary _ _ := Raise binary_only;
  F1Score_binary _ _ := Raise binary_only;
  MeanAbsoluteError p t := e ← elementwise abs_error p t; Ok [fmean e];
  MeanSquaredError squared p t :=
    e ← elementwise sq_error p t;
    Ok [if squared then fmean e else PrimFloat.sqrt (fmean e)];
  R2Score := r2_score
|}.

(** A model that returns its inputs as the predictions of the one task,
    with the mean squared error as its loss. *)
#[export] Instance molbert_model : MolbertModel := {|
  batch_inputs := list float;
  forward x := Ok {["finetune" := x]};
  evaluate_losses batch_labels batch_predictions :=
    t ← getitem batch_labels "finetune";
    p ← getitem batch_predictions "finetune";
    l ← MeanSquaredError true p t;
    Ok [("finetune", l)]
|}.

(** [posixpath.dirname] and [posixpath.join] for two components. *)
Definition slash : ascii := "/"%char.
Definition is_slash (c : ascii) : bool := Ascii.eqb c slash.

Fixpoint drop_while (f : ascii -> bool) (l : list ascii) : list ascii :=
  match l with
  | c :: l' => if f c then drop_while f l' else l
  | [] => []
  end.

Definition dirname (p : string) : string :=
  let head := rev (drop_while (fun c => negb (is_slash c)) (rev (list_ascii_of_string p))) in
  let head :=
    if forallb is_slash head then head
    else rev (drop_while is_slash (rev head)) in
  string_of_list_ascii head.

Definition join (a b : string) : string :=
  match list_ascii_of_string b with
  | c :: _ =>
      if is_slash c then b
      else match rev (list_ascii_of_string a) with
           | [] => b
           | d :: _ => if is_slash d then (a +:+ b)%string else (a +:+ "/" +:+ b)%string
           end
  | [] =>
      match rev (list_ascii_of_string a) with
      | [] => b
      | d :: _ => if is_slash d then a else (a +:+ "/")%string
      end
  end.

(** Every path can be opened for writing except the empty one. *)
#[export] Instance os : OS := {|
  os_path_dirname := dirname;
  os_path_join := join;
  open_error p :=
    if String.eqb p "" then Some (OSError "No such file or directory") else None
|}.

Definition args_gpus (n : Z) (strategy : string) : Namespace.t :=
  Namespace.mk 42 (PyStr "out") 1 10 (PyFloat 1) (PyFloat 1) n
    (PyStr strategy) (PyInt 32) 1 1 false false None.

(** A parser that knows two command lines; training always succeeds. *)
#[export] Instance lightning : Lightning unit := {|
  parser := unit;
  get_default_parser := tt;
  parser_parse_args _ args :=
    match args with
    | Some ["--gpus"; "0"] => Ok (args_gpus 0 "auto")
    | Some ["--gpus"; "2"] => Ok (args_gpus 2 "ddp")
    | _ => Raise (ArgumentError "unrecognized arguments")
    end;
  trainer_fit _ _ _ := Ok tt
|}.

#[export] Instance app : MolbertApp unit := {|
  get_model _ := Ok tt;
  add_parser_arguments p := Ok p
|}.

Definition hparams0 : HParams.t :=
  HParams.mk None true 512 "regression" 1 "activity" 128
    "train.csv" "valid.csv" "test.csv" 4.

Definition model0 : Model :=
  {| hparams := hparams0;
     test_step_outputs := [];
     trainer_ckpt_path := Some "runs/v1/last.ckpt";
     logged := [];
     files := ∅ |}.

Definition batch1 : (list float * gmap string (list float)) * list float :=
  (([1; 2]%float, {["finetune" := [1; 2.5]%float]}), [1; 1]%float).
Definition batch2 : (list float * gmap string (list float)) * list float :=
  (([3]%float, {["finetune" := [3]%float]}), [1]%float).

(** The model after the test steps of one pass over two batches. *)
Definition model1 : Model := (test_steps [batch1; batch2] 0 model0).2.

(** One example, with its label. *)
Definition one_prediction : tensor := [2]%float.
Definition one_label : tensor := [2.5]%float.

(** Two checkpoint files: one of a pretraining run, whose encoder the
    fine-tuning model shares, and one without a state dictionary. *)
Definition pretrained : gmap string tensor :=
  {["encoder.weight" := [0.5; 0.25]%float; "lm_head.weight" := [7]%float]}.

#[export] Instance torch_io : TorchIO := {|
  torch_load path :=
    if String.eqb path "pretrained.ckpt"
    then Ok {["state_dict" := StateDict pretrained; "epoch" := Meta (PyInt 3)]}
    else if String.eqb path "broken.ckpt"
    then Ok {["epoch" := Meta (PyInt 3)]}
    else Raise (OSError "No such file or directory");
  same_size a b := same_shape a b
|}.

(** The parameters of a fresh fine-tuning model. *)
Definition finetune_params : gmap string tensor :=
  {["encoder.weight" := [0; 0]%float; "finetune_head.weight" := [1]%float]}.

(** A test set of one example, and the model after its one test step. *)
Definition batch_one : (list float * gmap string (list float)) * list float :=
  (([2]%float, {["finetune" := [2.5]%float]}), [1]%float).
Definition model_one : Model := (test_steps [batch_one] 0 model0).2.

(** The head alone: no parameter that [pretrained] has. *)
Definition head_params : gmap string tensor :=
  {["finetune_head.weight" := [1]%float]}.

Definition test_dataset0 : Dataset.t :=
  Dataset.mk "test.csv" 0 128 128 "activity" false (Some true).
Definition datasets0 : Datasets.t :=
  Datasets.mk test_dataset0 test_dataset0 test_dataset0.

(** The model of [model1], with no checkpoint active. *)
Definition model1_no_checkpoint : Model :=
  {| hparams := hparams model1;
     test_step_outputs := test_step_outputs model1;
     trainer_ckpt_path := None;
     logged := logged model1;
     files := files model1 |}.

End Ref.

(* ================================================================== *)
(** * Properties *)

Ltac run_st := repeat (unfold mbind, mret, St_bind, St_ret, gets, modify, lift; simpl).

(** ** get_config *)

Lemma get_config_eval (h : HParams.t) :
  get_config h =
  let h' := if vocab_size_unset h then HParams.set_vocab_size (PyInt 42) h else h in
  let vocab := match HParams.vocab_size h with
               | Some v => if truthy v then v else PyInt 42
               | None => PyInt 42
               end in
  (Ok (if HParams.tiny h
       then BertConfigExtras.mk vocab 16 2 2 32
              (HParams.max_position_embeddings h) (HParams.mode h)
              (HParams.output_size h) (HParams.label_column h)
       else BertConfigExtras.mk vocab 768 12 12 3072
              (HParams.max_position_embeddings h) (HParams.mode h)
              (HParams.output_size h) (HParams.label_column h)), h').
Proof.
  unfold get_config, vocab_size_unset, HParams.get_vocab_size.
  destruct h as [[v|] [] mpe m os lc msl tr va te nw]; run_st;
    try destruct (truthy v); reflexivity.
Qed.

(** C5: [get_config] returns the tiny preset (16, 2, 2, 32) when [tiny]
    holds and the full preset (768, 12, 12, 3072) otherwise, whatever the
    other arguments are; a vocabulary size that is missing or falsy becomes
    42 (one that is set is kept); mode, output size and label column (and
    the maximal position) are those of the arguments.  The call never
    raises. *)
Theorem get_config_presets (h : HParams.t) :
  exists c h',
    get_config h = (Ok c, h') /\
    (HParams.tiny h = true ->
       BertConfigExtras.hidden_size c = 16%Z /\
       BertConfigExtras.num_hidden_layers c = 2%Z /\
       BertConfigExtras.num_attention_heads c = 2%Z /\
       BertConfigExtras.intermediate_size c = 32%Z) /\
    (HParams.tiny h = false ->
       BertConfigExtras.hidden_size c = 768%Z /\
       BertConfigExtras.num_hidden_layers c = 12%Z /\
       BertConfigExtras.num_attention_heads c = 12%Z /\
       BertConfigExtras.intermediate_size c = 3072%Z) /\
    (HParams.vocab_size h = None ->
       BertConfigExtras.vocab_size_or_config_json_file c = PyInt 42) /\
    (forall v, HParams.vocab_size h = Some v ->
       BertConfigExtras.vocab_size_or_config_json_file c =
         if truthy v then v else PyInt 42) /\
    BertConfigExtras.mode c = HParams.mode h /\
    BertConfigExtras.output_size c = HParams.output_size h /\
    BertConfigExtras.label_column c = HParams.label_column h /\
    BertConfigExtras.max_position_embeddings c = HParams.max_position_embeddings h.
Proof.
  eexists _, _. split; [apply get_config_eval |].
  cbn zeta. destruct (HParams.tiny h) eqn:Htiny; cbn [BertConfigExtras.hidden_size
    BertConfigExtras.num_hidden_layers BertConfigExtras.num_attention_heads
    BertConfigExtras.intermediate_size BertConfigExtras.vocab_size_or_config_json_file
    BertConfigExtras.mode BertConfigExtras.output_size BertConfigExtras.label_column
    BertConfigExtras.max_position_embeddings].
  all: repeat split; try discriminate; try reflexivity.
  all: try (intros Hv; rewrite Hv; reflexivity).
  all: intros v Hv; rewrite Hv; reflexivity.
Qed.

Lemma get_config_presets_witness :
  exists c h',
    get_config Ref.hparams0 = (Ok c, h') /\
    BertConfigExtras.hidden_size c = 16%Z /\
    BertConfigExtras.intermediate_size c = 32%Z /\
    BertConfigExtras.vocab_size_or_config_json_file c = PyInt 42 /\
    BertConfigExtras.mode c = "regression".
Proof.
  destruct (get_config_presets Ref.hparams0)
    as (c & h' & E & Htiny & _ & Hvocab & _ & Hmode & _).
  exists c, h'. destruct (Htiny eq_refl) as (H1 & _ & _ & H4).
  repeat split; [exact E | exact H1 | exact H4 | exact (Hvocab eq_refl) | exact Hmode].
Defined.

Lemma set_vocab_size_changes (h : HParams.t) :
  vocab_size_unset h = true -> HParams.set_vocab_size (PyInt 42) h <> h.
Proof.
  unfold vocab_size_unset. intros Hu Heq.
  apply (f_equal HParams.vocab_size) in Heq. simpl in Heq.
  rewrite <- Heq in Hu. discriminate.
Qed.

Lemma get_config_keeps_set_vocab_size (h : HParams.t) :
  vocab_size_unset h = false -> (get_config h).2 = h.
Proof. intros Hu. rewrite get_config_eval. simpl. by rewrite Hu. Qed.

(** C10: when [hparams] has no [vocab_size], or a falsy one, [get_config]
    stores 42 into the [hparams] object itself: the object it leaves behind
    differs from the one it found, it differs in [vocab_size] only, a later
    read of [hparams.vocab_size] gives 42, and a later [get_config] finds
    the value set and returns the same configuration. *)
Theorem get_config_stores_default_vocab_size (h : HParams.t) :
  (HParams.vocab_size h = None \/
   exists v, HParams.vocab_size h = Some v /\ truthy v = false) ->
  exists c h',
    get_config h = (Ok c, h') /\
    h' = HParams.set_vocab_size (PyInt 42) h /\
    h' <> h /\
    HParams.vocab_size h' = Some (PyInt 42) /\
    HParams.get_vocab_size h' = (Ok (PyInt 42), h') /\
    get_config h' = (Ok c, h').
Proof.
  intros Hunset.
  assert (Hu : vocab_size_unset h = true).
  { unfold vocab_size_unset. destruct Hunset as [-> | (v & -> & ->)]; reflexivity. }
  eexists _, (HParams.set_vocab_size (PyInt 42) h).
  split; [rewrite get_config_eval; cbn zeta; rewrite Hu; reflexivity |].
  split; [reflexivity |]. split; [by apply set_vocab_size_changes |].
  split; [reflexivity |]. split; [reflexivity |].
  rewrite get_config_eval. cbn.
  destruct Hunset as [-> | (v & -> & ->)]; reflexivity.
Qed.

Lemma get_config_stores_default_vocab_size_witness :
  exists c h',
    get_config Ref.hparams0 = (Ok c, h') /\
    h' <> Ref.hparams0 /\
    HParams.vocab_size h' = Some (PyInt 42).
Proof.
  destruct (get_config_stores_default_vocab_size Ref.hparams0 (or_introl eq_refl))
    as (c & h' & E & _ & Hne & Hv & _).
  exists c, h'. exact (conj E (conj Hne Hv)).
Defined.

(** ** get_tasks *)

(** C6: for every configuration, [get_tasks] returns a list of exactly one
    task; its name is "finetune" (and its configuration the given one). *)
Theorem get_tasks_single_finetune (config : BertConfigExtras.t) :
  List.length (get_tasks config) = 1%nat /\
  exists task,
    get_tasks config = [task] /\
    FinetuneTask.name task = "finetune" /\
    FinetuneTask.config task = config.
Proof.
  unfold get_tasks. split; [reflexivity |].
  eexists. split; [reflexivity |]. split; reflexivity.
Qed.

(** ** load_datasets *)

(** C7: [load_datasets] builds exactly one featurizer, sized to the maximal
    sequence length; the three partitions all hold a reference to that one
    instance; the train and valid partitions are built without the
    [inference_mode] argument (so not in inference mode), the test partition
    with [inference_mode=True]. *)
Theorem load_datasets_one_featurizer (h : HParams.t) (heap : list Featurizer.t) :
  exists ds f,
    load_datasets h heap = (Ok ds, heap ++ [f]) /\
    Featurizer.max_length f = HParams.max_seq_length h /\
    (heap ++ [f]) !! Dataset.featurizer (Datasets.train ds) = Some f /\
    Dataset.featurizer (Datasets.valid ds) = Dataset.featurizer (Datasets.train ds) /\
    Dataset.featurizer (Datasets.test ds) = Dataset.featurizer (Datasets.train ds) /\
    Dataset.inference_mode (Datasets.train ds) = None /\
    Dataset.inference_mode (Datasets.valid ds) = None /\
    Dataset.inference_mode (Datasets.test ds) = Some true /\
    in_inference_mode (Datasets.train ds) = false /\
    in_inference_mode (Datasets.valid ds) = false /\
    in_inference_mode (Datasets.test ds) = true.
Proof.
  eexists _, (Featurizer.mk (HParams.max_seq_length h)).
  split; [reflexivity |]. split; [reflexivity |].
  split.
  { cbn [Datasets.train Dataset.featurizer].
    rewrite lookup_app_r by reflexivity. by rewrite Nat.sub_diag. }
  repeat split.
Qed.

(** ** The test data loader *)

Lemma batch_sampler_below (k : nat) (sampler batch : list nat) :
  (List.length batch + List.length sampler < k)%nat ->
  batch_sampler k sampler batch =
    if (0 <? List.length (batch ++ sampler))%nat then [batch ++ sampler] else [].
Proof.
  revert batch. induction sampler as [|idx sampler IH]; intros batch Hlt; simpl.
  - by rewrite app_nil_r.
  - simpl in Hlt. destruct (Nat.eqb_spec (List.length (batch ++ [idx])) k) as [E|_].
    + rewrite length_app in E. simpl in E. lia.
    + rewrite IH by (rewrite length_app; simpl; lia).
      by rewrite <- app_assoc.
Qed.

Lemma batch_sampler_exact (k : nat) (sampler batch : list nat) :
  sampler <> [] ->
  (List.length batch + List.length sampler = k)%nat ->
  batch_sampler k sampler batch = [batch ++ sampler].
Proof.
  revert batch. induction sampler as [|idx sampler IH]; intros batch Hne Hk; [done |].
  simpl in *. destruct sampler as [|idx' sampler].
  - simpl in *. rewrite length_app. simpl.
    destruct (Nat.eqb_spec (List.length batch + 1) k); [reflexivity | lia].
  - rewrite length_app. simpl in *.
    destruct (Nat.eqb_spec (List.length batch + 1) k) as [E|_]; [lia |].
    rewrite (IH (batch ++ [idx])); [| done | rewrite length_app; simpl; lia].
    by rewrite <- app_assoc.
Qed.

(** Whatever the batch size, the batches are the examples in order. *)
Lemma batch_sampler_concat (k : nat) (sampler batch : list nat) :
  List.concat (batch_sampler k sampler batch) = batch ++ sampler.
Proof.
  revert batch. induction sampler as [|idx sampler IH]; intros batch; simpl.
  - destruct (0 <? List.length batch)%nat eqn:E; simpl; [reflexivity |].
    apply Nat.ltb_ge in E. destruct batch; [reflexivity | simpl in E; lia].
  - destruct (List.length (batch ++ [idx]) =? k)%nat; simpl; rewrite IH.
    + by rewrite <- app_assoc.
    + by rewrite <- app_assoc.
Qed.

(** No batch is empty, and none is longer than the batch size. *)
Lemma batch_sampler_bounded (k : nat) (sampler batch b : list nat) :
  (List.length batch < k)%nat ->
  b ∈ batch_sampler k sampler batch ->
  (0 < List.length b <= k)%nat.
Proof.
  revert batch. induction sampler as [|idx sampler IH]; intros batch Hlt; simpl.
  - destruct (Nat.ltb_spec 0 (List.length batch)); [| by intros ?%elem_of_nil].
    intros ->%list_elem_of_singleton. lia.
  - destruct (Nat.eqb_spec (List.length (batch ++ [idx])) k) as [E|Hne].
    + intros [-> | Hin]%elem_of_cons.
      * rewrite length_app in *. simpl in *. lia.
      * apply (IH []); [simpl; lia | done].
    + apply IH. rewrite length_app in *. simpl in *. lia.
Qed.

(** X16: whatever the size of the test partition, the batches of the test
    loader are its examples in order, none lost and none repeated; no batch
    is empty and none has more than 1024 examples. *)
Lemma test_dataloader_batches (ds : Datasets.t) (h : HParams.t) (n : nat) :
  List.concat (batches (test_dataloader ds h) n) = seq 0 n /\
  forall b, b ∈ batches (test_dataloader ds h) n -> (0 < List.length b <= 1024)%nat.
Proof.
  unfold batches, test_dataloader. cbn [DataLoader.batch_size]. split.
  - apply batch_sampler_concat.
  - intros b. apply batch_sampler_bounded. simpl. lia.
Qed.

(** X17: a test partition of at most 1024 examples (and at least one) is
    one batch, which holds all of it. *)
Lemma test_dataloader_small_single_batch (ds : Datasets.t) (h : HParams.t) (n : nat) :
  (0 < n <= 1024)%nat ->
  batches (test_dataloader ds h) n = [seq 0 n].
Proof.
  intros [Hpos Hle]. unfold batches, test_dataloader. cbn [DataLoader.batch_size].
  destruct (decide (n = 1024%nat)) as [->|Hne].
  - apply batch_sampler_exact; [by destruct (seq 0 1024) eqn:E | by rewrite length_seq].
  - rewrite batch_sampler_below by (rewrite length_seq; simpl; lia).
    simpl. rewrite length_seq. by destruct (Nat.ltb_spec 0 n); [|lia].
Qed.

(** C4 (fails on the code): a test partition of 1025 examples comes out of
    [test_dataloader] as two batches, of 1024 examples and of 1 example;
    the second one is neither 1024 long nor the whole partition. *)
Theorem test_dataloader_splits_1025 (ds : Datasets.t) (h : HParams.t) :
  DataLoader.batch_size (test_dataloader ds h) = 1024%nat /\
  map (@List.length nat) (batches (test_dataloader ds h) 1025) = [1024; 1]%nat.
Proof.
  split; [reflexivity |].
  unfold batches, test_dataloader. cbn [DataLoader.batch_size].
  vm_compute. reflexivity.
Qed.

(** ** run *)

Section AppProperties.
Context {model : Type} `{L : Lightning model} `{App : !MolbertApp model}.

Lemma make_trainer_devices (a : Namespace.t) :
  Trainer.devices (make_trainer a) =
    if (Namespace.gpus a =? 0)%Z then PyStr "auto" else PyInt (Namespace.gpus a).
Proof. reflexivity. Qed.

Lemma run_Ok (args : option (list string)) (w w' : World.t model) (t : Trainer.t) :
  run args w = (Ok t, w') ->
  exists a, parse_args args = Ok a /\ t = make_trainer a.
Proof.
  unfold run. run_st. intros Hrun.
  destruct (parse_args args) as [a|e]; [| discriminate].
  destruct (get_model a) as [m|e]; [| discriminate].
  unfold fit in Hrun.
  destruct (trainer_fit _ _ _); [| discriminate].
  exists a. split; [reflexivity | congruence].
Qed.

(** C8: the trainer that [run] builds takes its device selection from
    the [gpus] argument: [gpus = 0] gives ["auto"], any other value is
    passed on as the device count.  Every trainer that [run] returns is
    that trainer, and [run] does return it once the model hook and the
    training loop succeed. *)
Theorem run_devices_from_gpus (args : option (list string)) (a : Namespace.t)
    (w : World.t model) :
  parse_args args = Ok a ->
  (Namespace.gpus a = 0%Z -> Trainer.devices (make_trainer a) = PyStr "auto") /\
  (Namespace.gpus a <> 0%Z ->
     Trainer.devices (make_trainer a) = PyInt (Namespace.gpus a)) /\
  (forall t w', run args w = (Ok t, w') -> t = make_trainer a) /\
  (forall m,
     get_model a = Ok m ->
     trainer_fit (make_trainer a) m (Namespace.resume_from_checkpoint a) = Ok tt ->
     exists w', run args w = (Ok (make_trainer a), w')).
Proof.
  intros Hparse. rewrite make_trainer_devices. repeat split.
  - by intros ->.
  - intros Hne. by destruct (Z.eqb_spec (Namespace.gpus a) 0).
  - intros t w' Hrun. apply run_Ok in Hrun as (a' & Ha' & ->). congruence.
  - intros m Hm Hfit. unfold run. run_st. rewrite Hparse, Hm.
    unfold fit. rewrite Hfit. eauto.
Qed.

End AppProperties.

(** ** Ordered dictionaries *)

Lemma dict_set_fresh {V} (d : list (string * V)) (k : string) (v : V) :
  k ∉ map fst d -> dict_set d k v = d ++ [(k, v)].
Proof.
  induction d as [|[k' v'] d IH]; intros Hk; simpl; [reflexivity |].
  simpl in Hk. apply not_elem_of_cons in Hk as [Hne Hk].
  destruct (String.eqb_spec k' k) as [->|_]; [done |]. by rewrite IH.
Qed.

Lemma dict_get_app_fresh {V} (d1 d2 : list (string * V)) (k : string) :
  k ∉ map fst d1 -> dict_get (d1 ++ d2) k = dict_get d2 k.
Proof.
  induction d1 as [|[k' v'] d1 IH]; intros Hk; simpl; [reflexivity |].
  simpl in Hk. apply not_elem_of_cons in Hk as [Hne Hk].
  destruct (String.eqb_spec k' k) as [->|_]; [done |]. by apply IH.
Qed.

Lemma dict_get_map_NoDup {A V} (g : A -> V) (l : list (string * A)) (k : string) (a : A) :
  NoDup (map fst l) -> (k, a) ∈ l ->
  dict_get (map (fun kv => (fst kv, g (snd kv))) l) k = Some (g a).
Proof.
  induction l as [|[k' a'] l IH]; intros Hnd Hin; [by apply elem_of_nil in Hin |].
  simpl in *. apply NoDup_cons in Hnd as [Hk' Hnd].
  apply elem_of_cons in Hin as [Heq | Hin].
  - injection Heq as -> ->. by rewrite String.eqb_refl.
  - destruct (String.eqb_spec k' k) as [->|_]; [| by apply IH].
    exfalso. apply Hk'. apply list_elem_of_fmap. by exists (k, a).
Qed.

(** ** evaluate_metrics *)

Section ModelProperties.
Context `{T : Torch} `{TM : !TorchMetrics} `{MM : !MolbertModel} `{Os : !OS}.

Lemma metrics_table_names (mode : string) (batch_labels batch_predictions : tensor)
    (table : list (string * (unit -> result tensor))) :
  metrics_table mode batch_labels batch_predictions = Ok table ->
  map fst table =
    if String.eqb mode "classification"
    then ["AUROC"; "AveragePrecision"; "Accuracy"; "F1"]
    else ["MAE"; "RMSE"; "MSE"; "R2"].
Proof.
  unfold metrics_table. destruct (String.eqb mode "classification").
  - unfold mbind, mret, result_bind, result_ret.
    destruct (softmax_dim1 _) as [probs|]; [| discriminate].
    destruct (argmax_dim1_squeeze _); [| discriminate].
    destruct (select_column_1 _); [| discriminate].
    destruct (long_squeeze _); [| discriminate].
    by intros [= <-].
  - by intros [= <-].
Qed.

Lemma metrics_table_NoDup (mode : string) (batch_labels batch_predictions : tensor)
    (table : list (string * (unit -> result tensor))) :
  metrics_table mode batch_labels batch_predictions = Ok table ->
  NoDup (map fst table).
Proof.
  intros Ht. rewrite (metrics_table_names _ _ _ _ Ht).
  destruct (String.eqb mode "classification");
    apply (bool_decide_unpack _); by vm_compute.
Qed.

(** In regression mode the table is always there. *)
Lemma metrics_table_regression (mode : string) (batch_labels batch_predictions : tensor) :
  String.eqb mode "classification" = false ->
  exists table, metrics_table mode batch_labels batch_predictions = Ok table.
Proof. intros Hm. unfold metrics_table. rewrite Hm. eauto. Qed.

Lemma metrics_loop_spec
    (table : list (string * (unit -> result tensor))) (out : list (string * float)) :
  NoDup (map fst table) ->
  (forall k, k ∈ map fst table -> k ∉ map fst out) ->
  metrics_loop table out =
    out ++ map (fun kv => (fst kv, recorded (snd kv tt ≫= item))) table.
Proof.
  revert out. induction table as [|[name f] table IH]; intros out Hnd Hfresh; simpl.
  - by rewrite app_nil_r.
  - simpl in Hnd. apply NoDup_cons in Hnd as [Hname Hnd].
    assert (Hout : name ∉ map fst out) by (apply Hfresh; simpl; left).
    assert (Hstep : forall v,
      metrics_loop table (dict_set out name v) =
        out ++ (name, v) :: map (fun kv => (fst kv, recorded (snd kv tt ≫= item))) table).
    { intros v. rewrite dict_set_fresh by done. rewrite IH.
      - by rewrite <- app_assoc.
      - done.
      - intros k Hk. rewrite map_app. simpl.
        intros [Hin | Hin%list_elem_of_singleton]%elem_of_app.
        + by apply (Hfresh k); [simpl; right |].
        + by subst. }
    unfold recorded at 1. cbn [fst snd].
    destruct (f tt ≫= item) as [v|e] eqn:E; apply Hstep.
Qed.

(** C2: once the table of metrics is built, every metric is computed on its
    own: the mapping [evaluate_metrics] returns has the names of the table
    in order, a metric whose computation returns has that value, and one
    whose computation raises has NaN, whatever the other metrics do;
    [evaluate_metrics] itself returns, it raises none of their exceptions. *)
Theorem evaluate_metrics_isolates_failures
    (mode : string) (batch_labels batch_predictions : tensor)
    (table : list (string * (unit -> result tensor))) :
  metrics_table mode batch_labels batch_predictions = Ok table ->
  exists out,
    evaluate_metrics mode batch_labels batch_predictions = Ok out /\
    map fst out = map fst table /\
    forall name f, (name, f) ∈ table ->
      (forall v, f tt ≫= item = Ok v -> dict_get out name = Some v) /\
      (forall e, f tt ≫= item = Raise e -> dict_get out name = Some np_nan).
Proof.
  intros Htable.
  pose proof (metrics_table_NoDup _ _ _ _ Htable) as Hnd.
  eexists. split.
  { unfold evaluate_metrics. rewrite Htable. cbn [mbind result_bind].
    rewrite metrics_loop_spec; [reflexivity | done |].
    intros k _ Hk. by apply elem_of_nil in Hk. }
  cbn [app]. split.
  { rewrite map_map. by apply map_ext. }
  intros name f Hin.
  pose proof (dict_get_map_NoDup
    (fun g : unit -> result tensor => recorded (g tt ≫= item)) table name f Hnd Hin) as Hget.
  cbn beta in Hget. split.
  - intros v Hv. by rewrite Hget, Hv.
  - intros e He. by rewrite Hget, He.
Qed.

(** ** test_step and on_test_epoch_end *)

Lemma getitem_singleton (k : string) (v : tensor) :
  getitem {[k := v]} k = Ok v.
Proof. unfold getitem. by rewrite lookup_singleton_eq. Qed.

Ltac unfold_hook :=
  cbv [on_test_epoch_end test_step log_dict open_w json_dump
       mbind mret St_bind St_ret gets modify lift].

Ltac case_result H :=
  match type of H with
  | context [match ?r with Ok _ => _ | Raise _ => _ end] =>
      let E := fresh "E" in destruct r eqn:E
  | context [match ?r with Some _ => _ | None => _ end] =>
      let E := fresh "E" in destruct r eqn:E
  end.

Lemma test_step_spec (batch : (batch_inputs * gmap string tensor) * tensor)
    (batch_idx : Z) (m : Model) :
  test_step batch batch_idx m =
    match forward batch.1.1 with
    | Ok y_hat =>
        let outputs := Build_Outputs y_hat batch.1.2 in
        (Ok outputs, set_test_step_outputs (fun l => l ++ [outputs]) m)
    | Raise e => (Raise e, m)
    end.
Proof.
  destruct batch as [[batch_inputs batch_labels] valid]. unfold_hook. simpl.
  by destruct (forward batch_inputs).
Qed.

(** The steps of a pass append their outputs, in order, and touch nothing
    else. *)
Lemma test_steps_Ok (batches : list ((batch_inputs * gmap string tensor) * tensor))
    (batch_idx : Z) (m m' : Model) (outs : list Outputs) :
  test_steps batches batch_idx m = (Ok outs, m') ->
  m' = set_test_step_outputs (fun l => l ++ outs) m.
Proof.
  revert batch_idx m m' outs.
  induction batches as [|batch batches IH]; intros batch_idx m m' outs; simpl.
  - intros [= <- <-]. destruct m. unfold set_test_step_outputs. simpl.
    by rewrite app_nil_r.
  - cbv [mbind mret St_bind St_ret]. rewrite test_step_spec.
    destruct (forward batch.1.1) as [y_hat|]; [| discriminate]. cbn zeta iota.
    match goal with
    | |- context [test_steps batches ?i ?s] =>
        destruct (test_steps batches i s) as [[outs'|] m1] eqn:E; [| discriminate]
    end.
    intros [= <- <-]. apply IH in E as ->.
    unfold set_test_step_outputs. simpl. by rewrite <- app_assoc.
Qed.

(** On an empty accumulator the first concatenation raises, and nothing
    has been changed by then. *)
Lemma on_test_epoch_end_nil (m : Model) :
  test_step_outputs m = [] ->
  on_test_epoch_end m =
    (Raise (RuntimeError "torch.cat(): expected a non-empty list of Tensors"), m).
Proof. intros Hnil. unfold_hook. by rewrite Hnil. Qed.

(** What a call that returns has done. *)
Lemma on_test_epoch_end_Ok (m m' : Model) (r : Summary) :
  on_test_epoch_end m = (Ok r, m') ->
  exists preds labs all_predictions all_labels losses stacked dir,
    mapM (fun out => getitem (predictions out) "finetune") (test_step_outputs m) = Ok preds /\
    torch_cat preds = Ok all_predictions /\
    mapM (fun out => getitem (labels out) "finetune") (test_step_outputs m) = Ok labs /\
    torch_cat labs = Ok all_labels /\
    evaluate_losses {["finetune" := all_labels]} {["finetune" := all_predictions]}
      = Ok losses /\
    torch_stack (map snd losses) = Ok stacked /\
    evaluate_metrics (HParams.mode (hparams m)) all_labels all_predictions
      = Ok (metrics r) /\
    dirname_of (trainer_ckpt_path m) = Ok dir /\
    open_error (os_path_join dir "metrics.json") = None /\
    r = {| loss := torch_sum stacked;
           metrics := metrics r;
           test_loss := torch_sum stacked;
           log := dict_update [("test_loss", torch_sum stacked)] losses |} /\
    m' = {| hparams := hparams m;
            test_step_outputs := [];
            trainer_ckpt_path := trainer_ckpt_path m;
            logged := logged m ++ [LogMetrics (metrics r); LogTensors (log r)];
            files := <[os_path_join dir "metrics.json" := JsonDump (metrics r) 4]> (files m) |}.
Proof.
  unfold_hook. intros H.
  do 6 (case_result H; [| discriminate]).
  rewrite !getitem_singleton in H.
  do 2 (case_result H; [| discriminate]).
  cbn [trainer_ckpt_path set_logged] in H.
  case_result H; [discriminate |].
  injection H as <- <-.
  eexists _, _, _, _, _, _, _. repeat (split; [eassumption || reflexivity |]).
  unfold set_test_step_outputs, set_files, set_logged. cbn.
  by rewrite insert_insert_eq, <- app_assoc.
Qed.

(** And the converse: with a non-empty accumulator whose entries all have
    the "finetune" task, the call returns as soon as the collaborators
    do. *)
Lemma on_test_epoch_end_returns (m : Model)
    (preds labs : list tensor) (all_predictions all_labels stacked : tensor)
    (losses : list (string * tensor)) (mets : list (string * float)) (dir : string) :
  mapM (fun out => getitem (predictions out) "finetune") (test_step_outputs m) = Ok preds ->
  torch_cat preds = Ok all_predictions ->
  mapM (fun out => getitem (labels out) "finetune") (test_step_outputs m) = Ok labs ->
  torch_cat labs = Ok all_labels ->
  evaluate_losses {["finetune" := all_labels]} {["finetune" := all_predictions]}
    = Ok losses ->
  torch_stack (map snd losses) = Ok stacked ->
  evaluate_metrics (HParams.mode (hparams m)) all_labels all_predictions = Ok mets ->
  dirname_of (trainer_ckpt_path m) = Ok dir ->
  open_error (os_path_join dir "metrics.json") = None ->
  let tensorboard_logs := dict_update [("test_loss", torch_sum stacked)] losses in
  on_test_epoch_end m =
    (Ok {| loss := torch_sum stacked; metrics := mets;
           test_loss := torch_sum stacked; log := tensorboard_logs |},
     {| hparams := hparams m;
        test_step_outputs := [];
        trainer_ckpt_path := trainer_ckpt_path m;
        logged := logged m ++ [LogMetrics mets; LogTensors tensorboard_logs];
        files := <[os_path_join dir "metrics.json" := JsonDump mets 4]> (files m) |}).
Proof.
  intros H1 H2 H3 H4 H5 H6 H7 H8 H9 tensorboard_logs. unfold_hook.
  rewrite H1, H2, H3, H4, H5, H6, !getitem_singleton, H7.
  cbn [trainer_ckpt_path set_logged]. rewrite H8, H9.
  unfold set_test_step_outputs, set_files, set_logged. cbn.
  by rewrite insert_insert_eq, <- app_assoc.
Qed.

(** A call that raises has not touched the accumulator. *)
Lemma on_test_epoch_end_Raise (m m' : Model) (e : exn) :
  on_test_epoch_end m = (Raise e, m') ->
  test_step_outputs m' = test_step_outputs m.
Proof.
  unfold_hook. intros H.
  do 6 (case_result H; [| by injection H as <- <-]).
  rewrite !getitem_singleton in H.
  do 2 (case_result H; [| by injection H as <- <-]).
  cbn [trainer_ckpt_path set_logged] in H.
  case_result H; [by injection H as <- <- | discriminate].
Qed.

(** The file part of the round trip: [metrics.json], next to the active
    checkpoint, holds the dump with indent 4 of the very mapping that
    [evaluate_metrics] returned and that the summary carries. *)
Lemma on_test_epoch_end_writes_metrics (m m' : Model) (r : Summary) :
  on_test_epoch_end m = (Ok r, m') ->
  exists dir,
    dirname_of (trainer_ckpt_path m) = Ok dir /\
    files m' !! os_path_join dir "metrics.json" = Some (JsonDump (metrics r) 4).
Proof.
  intros (preds & labs & ap & al & losses & stacked & dir & _ & _ & _ & _ & _ & _ &
          _ & Hdir & _ & _ & ->)%on_test_epoch_end_Ok.
  exists dir. split; [done |]. cbn [files]. by rewrite lookup_insert_eq.
Qed.

(** C1: a call of [on_test_epoch_end] that returns leaves the accumulator
    empty.  So a second call in a row finds nothing to report on (it raises
    and leaves the model as it is), and the accumulator after the steps of
    any later pass holds the outputs of that pass and nothing else. *)
Theorem on_test_epoch_end_clears_accumulator (m m' : Model) (r : Summary) :
  on_test_epoch_end m = (Ok r, m') ->
  test_step_outputs m' = [] /\
  (exists e, on_test_epoch_end m' = (Raise e, m')) /\
  (forall batches batch_idx outs m'',
     test_steps batches batch_idx m' = (Ok outs, m'') ->
     test_step_outputs m'' = outs).
Proof.
  intros Hend.
  assert (Hnil : test_step_outputs m' = []).
  { apply on_test_epoch_end_Ok in Hend
      as (? & ? & ? & ? & ? & ? & ? & _ & _ & _ & _ & _ & _ & _ & _ & _ & _ & ->).
    reflexivity. }
  split; [exact Hnil |]. split.
  - eexists. by apply on_test_epoch_end_nil.
  - intros batches batch_idx outs m'' Hsteps.
    apply test_steps_Ok in Hsteps as ->.
    unfold set_test_step_outputs. simpl. by rewrite Hnil.
Qed.

(** C9: on an empty accumulator [on_test_epoch_end] returns no summary: the
    concatenation of the (no) predictions raises, and the model is left as
    it was.  This is what a second call in a row runs into. *)
Theorem on_test_epoch_end_empty_raises (m : Model) :
  test_step_outputs m = [] ->
  on_test_epoch_end m =
    (Raise (RuntimeError "torch.cat(): expected a non-empty list of Tensors"), m) /\
  (forall r m', on_test_epoch_end m <> (Ok r, m')).
Proof.
  intros Hnil. pose proof (on_test_epoch_end_nil m Hnil) as Hraise.
  split; [exact Hraise |]. intros r m' Hok. congruence.
Qed.

End ModelProperties.

(** ** Concrete runs *)

Section ConcreteRuns.
Import Ref.

Lemma run_devices_from_gpus_witness :
  (exists t w', run (Some ["--gpus"; "0"]) (World.mk None []) = (Ok t, w') /\
                Trainer.devices t = PyStr "auto") /\
  (exists t w', run (Some ["--gpus"; "2"]) (World.mk None []) = (Ok t, w') /\
                Trainer.devices t = PyInt 2).
Proof.
  split.
  - assert (Hparse : parse_args (Some ["--gpus"; "0"]) = Ok (args_gpus 0 "auto"))
      by reflexivity.
    destruct (run_devices_from_gpus _ _ (World.mk None []) Hparse)
      as (H0 & _ & _ & Hret).
    destruct (Hret tt eq_refl eq_refl) as (w' & Hrun).
    eexists _, w'. split; [exact Hrun | exact (H0 eq_refl)].
  - assert (Hparse : parse_args (Some ["--gpus"; "2"]) = Ok (args_gpus 2 "ddp"))
      by reflexivity.
    destruct (run_devices_from_gpus _ _ (World.mk None []) Hparse)
      as (_ & H2 & _ & Hret).
    destruct (Hret tt eq_refl eq_refl) as (w' & Hrun).
    eexists _, w'. split; [exact Hrun | apply H2; discriminate].
Defined.

(** Regression on a single example: the R2 score needs two, so its
    computation raises; the other three metrics have their values. *)
Lemma evaluate_metrics_isolates_failures_witness :
  exists out,
    evaluate_metrics "regression" one_label one_prediction = Ok out /\
    map fst out = ["MAE"; "RMSE"; "MSE"; "R2"] /\
    dict_get out "MAE" = Some 0.5%float /\
    dict_get out "RMSE" = Some 0.5%float /\
    dict_get out "MSE" = Some 0.25%float /\
    dict_get out "R2" = Some np_nan.
Proof.
  eassert (Htable : metrics_table "regression" one_label one_prediction = Ok _)
    by reflexivity.
  destruct (evaluate_metrics_isolates_failures _ _ _ _ Htable)
    as (out & Hout & Hnames & Hget).
  exists out. split; [exact Hout |]. split; [exact Hnames |].
  repeat split.
  - refine (proj1 (Hget "MAE" (fun _ => MeanAbsoluteError one_prediction one_label) _) _ _);
      [repeat constructor | reflexivity].
  - refine (proj1 (Hget "RMSE" (fun _ => MeanSquaredError false one_prediction one_label) _) _ _);
      [repeat constructor | reflexivity].
  - refine (proj1 (Hget "MSE" (fun _ => MeanSquaredError true one_prediction one_label) _) _ _);
      [repeat constructor | reflexivity].
  - refine (proj2 (Hget "R2" (fun _ => R2Score one_prediction one_label) _) _ _);
      [repeat constructor | reflexivity].
Defined.

(** A pass over two batches, then the end of the epoch. *)
Lemma on_test_epoch_end_clears_accumulator_witness :
  List.length (test_step_outputs model1) = 2%nat /\
  test_step_outputs (on_test_epoch_end model1).2 = [].
Proof.
  split; [reflexivity |].
  destruct (on_test_epoch_end model1) as [[r|e] m'] eqn:E.
  - exact (proj1 (on_test_epoch_end_clears_accumulator _ _ _ E)).
  - vm_compute in E. discriminate E.
Defined.

(** The end of the epoch with no test step before it. *)
Lemma on_test_epoch_end_empty_raises_witness :
  on_test_epoch_end model0 =
    (Raise (RuntimeError "torch.cat(): expected a non-empty list of Tensors"), model0).
Proof. exact (proj1 (on_test_epoch_end_empty_raises model0 eq_refl)). Defined.

End ConcreteRuns.

(* ================================================================== *)
(** * Further properties *)

(** ** Ordered dictionaries: lookup after store *)

Lemma dict_get_set_eq {V} (d : list (string * V)) (k : string) (v : V) :
  dict_get (dict_set d k v) k = Some v.
Proof.
  induction d as [|[k' v'] d IH]; simpl.
  - by rewrite String.eqb_refl.
  - destruct (String.eqb_spec k' k) as [->|Hne]; simpl.
    + by rewrite String.eqb_refl.
    + by destruct (String.eqb_spec k' k).
Qed.

Lemma dict_get_set_ne {V} (d : list (string * V)) (k k' : string) (v : V) :
  k <> k' -> dict_get (dict_set d k v) k' = dict_get d k'.
Proof.
  intros Hne. induction d as [|[k1 v1] d IH]; simpl.
  - by destruct (String.eqb_spec k k').
  - destruct (String.eqb_spec k1 k) as [->|Hk1]; simpl.
    + by destruct (String.eqb_spec k k').
    + by rewrite IH.
Qed.

Lemma dict_get_fresh {V} (d : list (string * V)) (k : string) :
  k ∉ map fst d -> dict_get d k = None.
Proof.
  induction d as [|[k' v'] d IH]; intros Hk; simpl; [reflexivity |].
  simpl in Hk. apply not_elem_of_cons in Hk as [Hne Hk].
  destruct (String.eqb_spec k' k) as [->|_]; [done | by apply IH].
Qed.

(** In [{**a, **b}] a key of [b] has the value of [b], any other key the
    value of [a]. *)
Lemma dict_get_update {V} (a b : list (string * V)) (k : string) :
  NoDup (map fst b) ->
  dict_get (dict_update a b) k =
    match dict_get b k with
    | Some v => Some v
    | None => dict_get a k
    end.
Proof.
  unfold dict_update. revert a.
  induction b as [|[k1 v1] b IH]; intros a Hnd; simpl; [reflexivity |].
  simpl in Hnd. apply NoDup_cons in Hnd as [Hk1 Hnd].
  rewrite IH by done.
  destruct (String.eqb_spec k1 k) as [->|Hne].
  - by rewrite dict_get_fresh, dict_get_set_eq.
  - by rewrite dict_get_set_ne.
Qed.

(** ** get_config, once more *)

(** X1: whatever the hyperparameters are, [get_config] returns, and it
    leaves [hparams.vocab_size] set to a truthy value, the one the
    configuration carries; nothing else in [hparams] changes, and a second
    call changes nothing and returns the same configuration. *)
Theorem get_config_settles_vocab_size (h : HParams.t) :
  exists c h',
    get_config h = (Ok c, h') /\
    h' = (if vocab_size_unset h then HParams.set_vocab_size (PyInt 42) h else h) /\
    HParams.vocab_size h' = Some (BertConfigExtras.vocab_size_or_config_json_file c) /\
    truthy (BertConfigExtras.vocab_size_or_config_json_file c) = true /\
    vocab_size_unset h' = false /\
    get_config h' = (Ok c, h').
Proof.
  eexists _, _. split; [apply get_config_eval |]. cbn zeta.
  split; [reflexivity |].
  rewrite get_config_eval. unfold vocab_size_unset.
  destruct h as [[v|] tiny mpe m os lc msl tr va te nw]; cbn;
    [destruct (truthy v) eqn:Hv; cbn; rewrite ?Hv |]; destruct tiny; cbn;
    by rewrite ?Hv.
Qed.

(** ** evaluate_metrics, mode by mode *)

Section MetricsProperties.
Context `{T : Torch} `{TM : !TorchMetrics}.

(** X2: every mode other than the string "classification" is handled as
    regression: [evaluate_metrics] returns (it cannot raise), with exactly
    the entries MAE, RMSE, MSE, R2 in this order, each the value of its
    metric on (predictions, labels), or NaN where that computation raised;
    RMSE and MSE are the same metric with [squared] off and on. *)
Theorem evaluate_metrics_other_mode_is_regression
    (mode : string) (batch_labels batch_predictions : tensor) :
  mode <> "classification" ->
  evaluate_metrics mode batch_labels batch_predictions =
    Ok [("MAE", recorded (MeanAbsoluteError batch_predictions batch_labels ≫= item));
        ("RMSE", recorded (MeanSquaredError false batch_predictions batch_labels ≫= item));
        ("MSE", recorded (MeanSquaredError true batch_predictions batch_labels ≫= item));
        ("R2", recorded (R2Score batch_predictions batch_labels ≫= item))].
Proof.
  intros Hmode. unfold evaluate_metrics, metrics_table.
  destruct (String.eqb_spec mode "classification") as [|_]; [done |].
  cbn [mbind mret result_bind result_ret].
  rewrite metrics_loop_spec; [reflexivity | |].
  - apply (bool_decide_unpack _). by vm_compute.
  - intros k _ Hk. by apply elem_of_nil in Hk.
Qed.

(** X3: in classification mode the four conversions come first, and an
    exception of one of them leaves [evaluate_metrics] (it is not turned
    into NaN).  When they succeed the result has exactly the entries AUROC,
    AveragePrecision, Accuracy, F1 in this order: the first two computed on
    the probability of class 1, the last two on the argmax class, all four
    against the labels converted to integers. *)
Theorem evaluate_metrics_classification (batch_labels batch_predictions : tensor) :
  evaluate_metrics "classification" batch_labels batch_predictions =
    (probs ← softmax_dim1 batch_predictions;
     preds ← argmax_dim1_squeeze probs;
     probs_of_positive_class ← select_column_1 probs;
     int_labels ← long_squeeze batch_labels;
     Ok [("AUROC", recorded (AUROC_binary probs_of_positive_class int_labels ≫= item));
         ("AveragePrecision",
           recorded (AveragePrecision_binary probs_of_positive_class int_labels ≫= item));
         ("Accuracy", recorded (Accuracy_binary preds int_labels ≫= item));
         ("F1", recorded (F1Score_binary preds int_labels ≫= item))]).
Proof.
  unfold evaluate_metrics, metrics_table.
  change (String.eqb "classification" "classification") with true. cbv iota.
  unfold mbind, mret, result_bind, result_ret.
  destruct (softmax_dim1 batch_predictions) as [probs|]; [| reflexivity].
  destruct (argmax_dim1_squeeze probs) as [preds|]; [| reflexivity].
  destruct (select_column_1 probs) as [ppc|]; [| reflexivity].
  destruct (long_squeeze batch_labels) as [int_labels|]; [| reflexivity].
  rewrite metrics_loop_spec; [reflexivity | |].
  - apply (bool_decide_unpack _). by vm_compute.
  - intros k _ Hk. by apply elem_of_nil in Hk.
Qed.

End MetricsProperties.

(** ** One evaluation pass *)

Section PassProperties.
Context `{T : Torch} `{TM : !TorchMetrics} `{MM : !MolbertModel} `{Os : !OS}.

Ltac hook_unfold :=
  cbv [on_test_epoch_end test_step log_dict open_w json_dump
       mbind mret St_bind St_ret gets modify lift].

Ltac hook_case H :=
  match type of H with
  | context [match ?r with Ok _ => _ | Raise _ => _ end] =>
      let E := fresh "E" in destruct r eqn:E
  | context [match ?r with Some _ => _ | None => _ end] =>
      let E := fresh "E" in destruct r eqn:E
  end.

(** What [test_step] makes of a batch. *)
Definition step_of (batch : (batch_inputs * gmap string tensor) * tensor)
    (out : Outputs) : Prop :=
  forward batch.1.1 = Ok (predictions out) /\ labels out = batch.1.2.

Lemma set_test_step_outputs_id (m : Model) :
  set_test_step_outputs (fun l => l ++ []) m = m.
Proof. destruct m. unfold set_test_step_outputs. simpl. by rewrite app_nil_r. Qed.

Lemma set_test_step_outputs_app (m : Model) (a b : list Outputs) :
  set_test_step_outputs (fun l => l ++ b) (set_test_step_outputs (fun l => l ++ a) m) =
  set_test_step_outputs (fun l => l ++ a ++ b) m.
Proof. unfold set_test_step_outputs. simpl. by rewrite <- app_assoc. Qed.

Lemma test_steps_Ok_outputs (batches : list ((batch_inputs * gmap string tensor) * tensor))
    (batch_idx : Z) (m m' : Model) (outs : list Outputs) :
  test_steps batches batch_idx m = (Ok outs, m') ->
  Forall2 step_of batches outs.
Proof.
  revert batch_idx m m' outs.
  induction batches as [|batch batches IH]; intros batch_idx m m' outs; simpl.
  - intros [= <- <-]. constructor.
  - cbv [mbind mret St_bind St_ret]. rewrite test_step_spec.
    destruct (forward batch.1.1) as [y_hat|] eqn:Hf; [| discriminate]. cbn zeta iota.
    match goal with
    | |- context [test_steps batches ?i ?s] =>
        destruct (test_steps batches i s) as [[outs'|] m1] eqn:E; [| discriminate]
    end.
    intros [= <- <-]. constructor; [by split | by eapply IH].
Qed.

(** X4: the steps of a pass put one record per batch at the end of the
    accumulator, in batch order, each with the predictions of the forward
    pass and the labels of its batch, and change nothing else.  When the
    forward pass of a batch raises, the pass stops there with that
    exception, and the records of the batches before it stay in the
    accumulator. *)
Theorem test_steps_accumulate_in_order
    (batches : list ((batch_inputs * gmap string tensor) * tensor))
    (batch_idx : Z) (m : Model) :
  match test_steps batches batch_idx m with
  | (Ok outs, m') =>
      Forall2 step_of batches outs /\
      m' = set_test_step_outputs (fun l => l ++ outs) m
  | (Raise e, m') =>
      exists before batch after outs,
        batches = before ++ batch :: after /\
        Forall2 step_of before outs /\
        forward batch.1.1 = Raise e /\
        m' = set_test_step_outputs (fun l => l ++ outs) m
  end.
Proof.
  revert batch_idx m.
  induction batches as [|batch batches IH]; intros batch_idx m; simpl.
  - split; [constructor | by rewrite set_test_step_outputs_id].
  - cbv [mbind mret St_bind St_ret]. rewrite test_step_spec.
    destruct (forward batch.1.1) as [y_hat|e] eqn:Hf; cbn zeta iota.
    + match goal with
      | |- context [test_steps batches ?i ?s] =>
          specialize (IH i s); destruct (test_steps batches i s) as [[outs'|e] m1]
      end.
      * destruct IH as [Hsteps ->]. split; [by constructor |].
        by rewrite set_test_step_outputs_app.
      * destruct IH as (before & b & after & outs & -> & Hsteps & Hb & ->).
        exists (batch :: before), b, after, (Build_Outputs y_hat batch.1.2 :: outs).
        split; [reflexivity |]. split; [by constructor |]. split; [done |].
        by rewrite set_test_step_outputs_app.
    + exists [], batch, batches, []. split; [reflexivity |]. split; [constructor |].
      split; [done |]. by rewrite set_test_step_outputs_id.
Qed.

(** X5: a call of [on_test_epoch_end] that raises has written no file and
    has not touched the accumulator, the hyperparameters or the checkpoint
    path; the only trace it can leave is the metrics dictionary handed to
    [log_dict]. *)
Theorem on_test_epoch_end_failure_keeps_state (m m' : Model) (e : exn) :
  on_test_epoch_end m = (Raise e, m') ->
  test_step_outputs m' = test_step_outputs m /\
  hparams m' = hparams m /\
  trainer_ckpt_path m' = trainer_ckpt_path m /\
  files m' = files m /\
  (logged m' = logged m \/ exists mets, logged m' = logged m ++ [LogMetrics mets]).
Proof.
  hook_unfold. intros H.
  do 6 (hook_case H; [| injection H as <- <-; repeat split; by left]).
  rewrite !getitem_singleton in H.
  hook_case H; [| injection H as <- <-; repeat split; by left].
  hook_case H; [| injection H as <- <-; repeat split; right; by eexists].
  cbn [trainer_ckpt_path set_logged] in H.
  hook_case H; [| discriminate].
  injection H as <- <-; repeat split; right; by eexists.
Qed.

(** X6: with no checkpoint active ([trainer.ckpt_path] is [None]) a call
    that would otherwise return raises [TypeError] instead: the metrics have
    been computed and logged by then, but no file is written and the
    accumulator is not cleared. *)
Theorem on_test_epoch_end_without_checkpoint (m m' : Model) (r : Summary) :
  on_test_epoch_end m = (Ok r, m') ->
  let m0 := Build_Model (hparams m) (test_step_outputs m) None (logged m) (files m) in
  on_test_epoch_end m0 =
    (Raise (TypeError "expected str, bytes or os.PathLike object, not NoneType"),
     Build_Model (hparams m) (test_step_outputs m) None
       (logged m ++ [LogMetrics (metrics r)]) (files m)).
Proof.
  intros (preds & labs & ap & al & losses & stacked & dir & H1 & H2 & H3 & H4 & H5 &
          H6 & H7 & _)%on_test_epoch_end_Ok m0.
  hook_unfold. cbn [test_step_outputs hparams m0].
  rewrite H1, H2, H3, H4, H5, H6, !getitem_singleton, H7. reflexivity.
Qed.

(** X7: a call that returns has written exactly one file, [metrics.json]
    in the directory of the active checkpoint: it now holds the dump, with
    indent 4, of the metrics of the summary (whatever it held before), and
    every other file is as it was.  The log has received the metrics and
    then the losses, in this order. *)
Theorem on_test_epoch_end_writes_one_file (m m' : Model) (r : Summary) :
  on_test_epoch_end m = (Ok r, m') ->
  exists ckpt_path,
    trainer_ckpt_path m = Some ckpt_path /\
    let metrics_path := os_path_join (os_path_dirname ckpt_path) "metrics.json" in
    files m' !! metrics_path = Some (JsonDump (metrics r) 4) /\
    (forall path, path <> metrics_path -> files m' !! path = files m !! path) /\
    logged m' = logged m ++ [LogMetrics (metrics r); LogTensors (log r)].
Proof.
  intros (preds & labs & ap & al & losses & stacked & dir & _ & _ & _ & _ & _ &
          _ & _ & Hdir & _ & _ & ->)%on_test_epoch_end_Ok.
  unfold dirname_of in Hdir.
  destruct (trainer_ckpt_path m) as [ckpt_path|]; [| discriminate].
  injection Hdir as <-. exists ckpt_path. split; [reflexivity |].
  cbn [files logged]. split; [by rewrite lookup_insert_eq |]. split; [| reflexivity].
  intros path Hpath. by rewrite lookup_insert_ne.
Qed.

(** X8: in the summary [loss] and [test_loss] are the same tensor, the sum
    of the losses.  Its [log] is ['test_loss'] followed by the named losses:
    every named loss is there under its name, and ['test_loss'] is the sum
    unless a loss is itself named so, which then takes its place. *)
Theorem on_test_epoch_end_log_entries (m m' : Model) (r : Summary) :
  on_test_epoch_end m = (Ok r, m') ->
  test_loss r = loss r /\
  exists all_labels all_predictions losses stacked,
    evaluate_losses {["finetune" := all_labels]} {["finetune" := all_predictions]}
      = Ok losses /\
    torch_stack (map snd losses) = Ok stacked /\
    loss r = torch_sum stacked /\
    (NoDup (map fst losses) ->
     forall k,
       dict_get (log r) k =
         match dict_get losses k with
         | Some v => Some v
         | None => if String.eqb k "test_loss" then Some (loss r) else None
         end).
Proof.
  intros (preds & labs & ap & al & losses & stacked & dir & _ & _ & _ & _ & Hl &
          Hs & _ & _ & _ & -> & _)%on_test_epoch_end_Ok.
  cbn [test_loss loss log]. split; [reflexivity |].
  exists al, ap, losses, stacked. repeat split; try done.
  intros Hnd k. rewrite dict_get_update by done.
  destruct (dict_get losses k); [reflexivity |]. cbn [dict_get].
  rewrite (String.eqb_sym k). by destruct (String.eqb "test_loss" k).
Qed.

Lemma mapM_result_cons {A B} (f : A -> result B) (x : A) (l : list A) :
  mapM f (x :: l) = y ← f x; k ← mapM f l; Ok (y :: k).
Proof. reflexivity. Qed.

Lemma mapM_steps (batches : list ((batch_inputs * gmap string tensor) * tensor))
    (outs : list Outputs) :
  Forall2 step_of batches outs ->
  mapM (fun out => getitem (predictions out) "finetune") outs =
    mapM (fun batch => y_hat ← forward batch.1.1; getitem y_hat "finetune") batches /\
  mapM (fun out => getitem (labels out) "finetune") outs =
    mapM (fun batch => getitem batch.1.2 "finetune") batches.
Proof.
  induction 1 as [|batch out batches outs [Hf Hl] _ [IHp IHl]]; [by split |].
  rewrite !mapM_result_cons, IHp, IHl, Hf, Hl. by split.
Qed.

(** X9: a whole pass.  After the steps over the batches, started on an
    empty accumulator, a returning [on_test_epoch_end] has evaluated the
    metrics once, on the concatenation of the "finetune" predictions of the
    forward passes and of the "finetune" labels of the batches, both in
    batch order, and has left the accumulator empty again. *)
Theorem test_pass_evaluates_concatenation
    (batches : list ((batch_inputs * gmap string tensor) * tensor))
    (batch_idx : Z) (m m1 m2 : Model) (outs : list Outputs) (r : Summary) :
  test_step_outputs m = [] ->
  test_steps batches batch_idx m = (Ok outs, m1) ->
  on_test_epoch_end m1 = (Ok r, m2) ->
  exists preds labs all_predictions all_labels,
    mapM (fun batch => y_hat ← forward batch.1.1; getitem y_hat "finetune") batches
      = Ok preds /\
    mapM (fun batch => getitem batch.1.2 "finetune") batches = Ok labs /\
    torch_cat preds = Ok all_predictions /\
    torch_cat labs = Ok all_labels /\
    evaluate_metrics (HParams.mode (hparams m)) all_labels all_predictions
      = Ok (metrics r) /\
    batches <> [] /\
    test_step_outputs m2 = [].
Proof.
  intros Hnil Hsteps Hend.
  pose proof (test_steps_Ok_outputs _ _ _ _ _ Hsteps) as Hout.
  apply test_steps_Ok in Hsteps as ->.
  apply on_test_epoch_end_Ok in Hend
    as (preds & labs & ap & al & losses & stacked & dir & H1 & H2 & H3 & H4 & _ &
        _ & H7 & _ & _ & _ & ->).
  cbn [test_step_outputs set_test_step_outputs hparams] in *.
  rewrite Hnil in *. cbn [app] in *.
  destruct (mapM_steps _ _ Hout) as [Hp Hl]. rewrite Hp in H1. rewrite Hl in H3.
  exists preds, labs, ap, al. repeat split; try done.
  intros ->. inversion Hout; subst. simpl in *. injection H1 as <-. discriminate.
Qed.

(** X15: [on_test_epoch_end] returns a summary exactly when all of this
    holds: every accumulated record has the "finetune" task among its
    predictions and among its labels; both concatenations succeed (so the
    accumulator is not empty); the losses are computed and can be stacked
    (so there is at least one); the conversions of [evaluate_metrics]
    succeed; a checkpoint is active; and [metrics.json] can be opened for
    writing next to it.  In every other case it raises. *)
Theorem on_test_epoch_end_returns_iff (m : Model) :
  (exists r m', on_test_epoch_end m = (Ok r, m')) <->
  exists preds labs all_predictions all_labels losses stacked mets dir,
    mapM (fun out => getitem (predictions out) "finetune") (test_step_outputs m)
      = Ok preds /\
    torch_cat preds = Ok all_predictions /\
    mapM (fun out => getitem (labels out) "finetune") (test_step_outputs m) = Ok labs /\
    torch_cat labs = Ok all_labels /\
    evaluate_losses {["finetune" := all_labels]} {["finetune" := all_predictions]}
      = Ok losses /\
    torch_stack (map snd losses) = Ok stacked /\
    evaluate_metrics (HParams.mode (hparams m)) all_labels all_predictions = Ok mets /\
    dirname_of (trainer_ckpt_path m) = Ok dir /\
    open_error (os_path_join dir "metrics.json") = None.
Proof.
  split.
  - intros (r & m' & H).
    apply on_test_epoch_end_Ok in H
      as (preds & labs & ap & al & losses & stacked & dir & H1 & H2 & H3 & H4 & H5 &
          H6 & H7 & H8 & H9 & _).
    exists preds, labs, ap, al, losses, stacked, (metrics r), dir.
    repeat split; assumption.
  - intros (preds & labs & ap & al & losses & stacked & mets & dir & H1 & H2 & H3 &
            H4 & H5 & H6 & H7 & H8 & H9).
    eexists _, _.
    exact (on_test_epoch_end_returns m _ _ _ _ _ _ _ _ H1 H2 H3 H4 H5 H6 H7 H8 H9).
Qed.

End PassProperties.

(** ** load_model_weights *)

Section WeightsProperties.
Context `{T : Torch} `{IO : !TorchIO}.

Lemma size_mismatches_nil (sd params : gmap string tensor) :
  size_mismatches sd params = [] ->
  forall k param input_param,
    params !! k = Some param -> sd !! k = Some input_param ->
    same_size param input_param = true.
Proof.
  unfold size_mismatches. intros Hnil k param input_param Hk Hsd.
  destruct (same_size param input_param) eqn:Hsize; [reflexivity | exfalso].
  assert (Hin : In (k, param) (map_to_list params))
    by (apply list_elem_of_In; by apply elem_of_map_to_list).
  enough (Hf : In (k, param) []) by destruct Hf.
  rewrite <- Hnil. apply List.filter_In. split; [exact Hin |].
  cbn. by rewrite Hsd, Hsize.
Qed.

Lemma size_mismatches_disjoint (sd params : gmap string tensor) :
  (forall k, is_Some (params !! k) -> sd !! k = None) ->
  size_mismatches sd params = [].
Proof.
  intros Hdisj. unfold size_mismatches.
  destruct (List.filter _ _) as [|[k param] l] eqn:Hf; [reflexivity | exfalso].
  assert (Hin : In (k, param) ((k, param) :: l)) by (by left).
  rewrite <- Hf in Hin. apply List.filter_In in Hin as [Hin Hmis].
  apply list_elem_of_In, elem_of_map_to_list in Hin.
  cbn in Hmis. rewrite Hdisj in Hmis by eauto. discriminate.
Qed.

Lemma load_model_weights_Ok (checkpoint_file : string)
    (params params' model : gmap string tensor) :
  load_model_weights checkpoint_file params = (Ok model, params') ->
  model = params' /\
  exists checkpoint sd,
    torch_load checkpoint_file = Ok checkpoint /\
    checkpoint !! "state_dict" = Some (StateDict sd) /\
    size_mismatches sd params = [] /\
    params' = map_imap (fun k param => Some (load_entry sd k param)) params.
Proof.
  cbv [load_model_weights load_state_dict checkpoint_state_dict
       mbind mret St_bind St_ret gets lift id].
  intros H.
  destruct (torch_load checkpoint_file) as [checkpoint|]; [| discriminate].
  destruct (checkpoint !! "state_dict") as [[sd|]|] eqn:Hsd; [| discriminate..].
  destruct (size_mismatches sd params) eqn:Hmis; [| discriminate].
  injection H as <- <-. split; [reflexivity |]. by exists checkpoint, sd.
Qed.

(** X10: when [load_model_weights] returns, the model it returns is the
    model it was given, updated in place: the model has the parameters it
    had, no more and no fewer; a parameter that the checkpoint's
    [state_dict] also has now holds the checkpoint's tensor; a parameter
    that the checkpoint lacks keeps its value; what the checkpoint has
    beyond the model's parameters is passed over. *)
Theorem load_model_weights_partial_match (checkpoint_file : string)
    (params params' model : gmap string tensor) :
  load_model_weights checkpoint_file params = (Ok model, params') ->
  model = params' /\
  exists checkpoint sd,
    torch_load checkpoint_file = Ok checkpoint /\
    checkpoint !! "state_dict" = Some (StateDict sd) /\
    dom params' = dom params /\
    forall k,
      params' !! k =
        match params !! k with
        | Some param => Some (default param (sd !! k))
        | None => None
        end.
Proof.
  intros (-> & checkpoint & sd & Hload & Hsd & Hmis & ->)%load_model_weights_Ok.
  split; [reflexivity |]. exists checkpoint, sd. split; [done |]. split; [done |].
  assert (Hlook : forall k,
    map_imap (fun k param => Some (load_entry sd k param)) params !! k =
      match params !! k with
      | Some param => Some (default param (sd !! k))
      | None => None
      end).
  { intros k. rewrite map_lookup_imap.
    destruct (params !! k) as [param|] eqn:Hk; [| reflexivity]. cbn.
    unfold load_entry. destruct (sd !! k) as [input_param|] eqn:Hin; [| reflexivity].
    by rewrite (size_mismatches_nil _ _ Hmis k param input_param). }
  split; [| exact Hlook].
  apply set_eq. intros k. rewrite !elem_of_dom, Hlook.
  destruct (params !! k); split; intros [? ?]; by eauto.
Qed.

(** X11: when the checkpoint file cannot be loaded, or what is loaded has
    no ['state_dict'] entry, [load_model_weights] raises (the error of
    [torch.load], or [KeyError]) and the model is untouched. *)
Theorem load_model_weights_failures (checkpoint_file : string)
    (params : gmap string tensor) :
  (forall e,
     torch_load checkpoint_file = Raise e ->
     load_model_weights checkpoint_file params = (Raise e, params)) /\
  (forall checkpoint,
     torch_load checkpoint_file = Ok checkpoint ->
     checkpoint !! "state_dict" = None ->
     load_model_weights checkpoint_file params = (Raise (KeyError "state_dict"), params)).
Proof.
  split.
  - intros e He.
    cbv [load_model_weights mbind mret St_bind St_ret gets lift]. by rewrite He.
  - intros checkpoint Hload Hsd.
    cbv [load_model_weights checkpoint_state_dict mbind mret St_bind St_ret gets lift].
    by rewrite Hload, Hsd.
Qed.

(** X12: a checkpoint whose [state_dict] shares no key with the model is
    accepted without an error, and the model comes back unchanged. *)
Theorem load_model_weights_no_shared_key (checkpoint_file : string)
    (checkpoint : gmap string checkpoint_value) (sd params : gmap string tensor) :
  torch_load checkpoint_file = Ok checkpoint ->
  checkpoint !! "state_dict" = Some (StateDict sd) ->
  (forall k, is_Some (params !! k) -> sd !! k = None) ->
  load_model_weights checkpoint_file params = (Ok params, params).
Proof.
  intros Hload Hsd Hdisj.
  cbv [load_model_weights load_state_dict checkpoint_state_dict
       mbind mret St_bind St_ret gets lift id].
  rewrite Hload, Hsd, size_mismatches_disjoint by done.
  assert (Hsame : map_imap (fun k param => Some (load_entry sd k param)) params = params).
  { apply map_eq. intros k. rewrite map_lookup_imap.
    destruct (params !! k) as [param|] eqn:Hk; [| reflexivity]. cbn.
    unfold load_entry. by rewrite Hdisj by eauto. }
  by rewrite Hsame.
Qed.

End WeightsProperties.

(** ** run, step by step *)

Section RunProperties.
Context {model : Type} `{L : Lightning model}.

(** X13: on [BaseMolbertApp] itself [run] raises [NotImplementedError]
    for every command line.  It is [add_parser_arguments] that raises,
    inside [parse_args]: nothing is seeded and no training is started. *)
Theorem run_base_app_not_implemented (args : option (list string)) (w : World.t model) :
  run (App := BaseMolbertApp model) args w = (Raise NotImplementedError, w).
Proof. reflexivity. Qed.

Context `{App : !MolbertApp model}.


End RunProperties.

(** ** metrics.json, written and read back *)

Lemma dict_get_NoDup {V} (d : list (string * V)) (k : string) (v : V) :
  NoDup (map fst d) -> (k, v) ∈ d -> dict_get d k = Some v.
Proof.
  induction d as [|[k' v'] d IH]; intros Hnd Hin; [by apply elem_of_nil in Hin |].
  simpl in *. apply NoDup_cons in Hnd as [Hk' Hnd].
  apply elem_of_cons in Hin as [Heq | Hin].
  - injection Heq as -> ->. by rewrite String.eqb_refl.
  - destruct (String.eqb_spec k' k) as [->|_]; [| by apply IH].
    exfalso. apply Hk'. apply list_elem_of_fmap. by exists (k, v).
Qed.

Lemma dict_get_elem_of {V} (d : list (string * V)) (k : string) (v : V) :
  dict_get d k = Some v -> (k, v) ∈ d.
Proof.
  induction d as [|[k' v'] d IH]; simpl; [discriminate |].
  destruct (String.eqb_spec k' k) as [->|_].
  - intros [= ->]. by left.
  - intros Hget. right. by apply IH.
Qed.

Lemma forallb_ext_elem {A} (f g : A -> bool) (l : list A) :
  (forall x, x ∈ l -> f x = g x) -> forallb f l = forallb g l.
Proof.
  induction l as [|x l IH]; intros Hfg; simpl; [reflexivity |].
  rewrite (Hfg x) by (by left). rewrite IH; [reflexivity |].
  intros y Hy. apply Hfg. by right.
Qed.

(** A dictionary that is read back compares equal to itself exactly when
    it holds no NaN. *)
Lemma py_dict_eq_self (d : list (string * float)) :
  NoDup (map fst d) ->
  py_dict_eq d d = forallb (fun kv => negb (is_nan kv.2)) d.
Proof.
  intros Hnd. unfold py_dict_eq. rewrite Nat.eqb_refl. cbn [andb].
  apply forallb_ext_elem. intros [k v] Hin. cbn [fst snd].
  rewrite (dict_get_NoDup d k v Hnd Hin). unfold is_nan.
  by rewrite negb_involutive.
Qed.

Section RoundTripProperties.
Context `{T : Torch} `{TM : !TorchMetrics} `{MM : !MolbertModel} `{Os : !OS}.

Lemma evaluate_metrics_NoDup (mode : string) (batch_labels batch_predictions : tensor)
    (out : list (string * float)) :
  evaluate_metrics mode batch_labels batch_predictions = Ok out ->
  NoDup (map fst out).
Proof.
  unfold evaluate_metrics.
  destruct (metrics_table mode batch_labels batch_predictions) as [table|] eqn:Htable;
    [| discriminate].
  cbn [mbind mret result_bind result_ret]. intros [= <-].
  pose proof (metrics_table_NoDup _ _ _ _ Htable) as Hnd.
  rewrite metrics_loop_spec; [| done |].
  - cbn [app]. rewrite map_map. cbn [fst]. exact Hnd.
  - intros k _ Hk. by apply elem_of_nil in Hk.
Qed.

(** C3, as amended: [metrics.json], written next to the active checkpoint,
    holds the dump with indent 4 of exactly the mapping that
    [evaluate_metrics] returned.  Read back, it gives a mapping with the
    same metric names in the same order, in which every metric has the
    value that was returned: a value that is no NaN compares equal to it,
    and a NaN is a NaN again.  The mapping read back compares equal to the
    returned one if and only if no metric is NaN. *)
Theorem metrics_json_round_trip (m m' : Model) (r : Summary) :
  on_test_epoch_end m = (Ok r, m') ->
  exists ckpt_path all_labels all_predictions parsed,
    trainer_ckpt_path m = Some ckpt_path /\
    evaluate_metrics (HParams.mode (hparams m)) all_labels all_predictions
      = Ok (metrics r) /\
    files m' !! os_path_join (os_path_dirname ckpt_path) "metrics.json"
      = Some (JsonDump (metrics r) 4) /\
    json_load_file (files m') (os_path_join (os_path_dirname ckpt_path) "metrics.json")
      = Ok parsed /\
    map fst parsed = map fst (metrics r) /\
    (forall name v,
       dict_get (metrics r) name = Some v ->
       exists v',
         dict_get parsed name = Some v' /\
         is_nan v' = is_nan v /\
         PrimFloat.eqb v' v = negb (is_nan v)) /\
    (py_dict_eq parsed (metrics r) = true <->
     forall name v, (name, v) ∈ metrics r -> is_nan v = false).
Proof.
  intros Hend.
  pose proof Hend as (preds & labs & ap & al & losses & stacked & dir & _ & _ & _ & _ &
                      _ & _ & Hmetrics & Hdir & _ & _ & Hm')%on_test_epoch_end_Ok.
  unfold dirname_of in Hdir.
  destruct (trainer_ckpt_path m) as [ckpt_path|]; [| discriminate].
  injection Hdir as <-.
  assert (Hfile : files m' !! os_path_join (os_path_dirname ckpt_path) "metrics.json"
                  = Some (JsonDump (metrics r) 4)).
  { rewrite Hm'. cbn [files]. by rewrite lookup_insert_eq. }
  exists ckpt_path, al, ap, (metrics r).
  split; [reflexivity |]. split; [exact Hmetrics |]. split; [exact Hfile |].
  split; [unfold json_load_file; by rewrite Hfile |]. split; [reflexivity |].
  pose proof (evaluate_metrics_NoDup _ _ _ _ Hmetrics) as Hnd.
  split.
  - intros name v Hget. exists v. split; [exact Hget |]. split; [reflexivity |].
    unfold is_nan. by rewrite negb_involutive.
  - rewrite py_dict_eq_self by done. rewrite forallb_forall. split.
    + intros Hall name v Hin. apply list_elem_of_In in Hin.
      apply Hall in Hin. cbn in Hin. by apply negb_true_iff in Hin.
    + intros Hall [name v] Hin. apply list_elem_of_In in Hin.
      cbn. apply negb_true_iff. by apply (Hall name).
Qed.

End RoundTripProperties.

(** ** Concrete runs, continued *)

Section MoreConcreteRuns.
Import Ref.

(** The mode is spelled with a capital: regression metrics. *)
Lemma evaluate_metrics_other_mode_is_regression_witness :
  evaluate_metrics "Classification" one_label one_prediction =
    Ok [("MAE", 0.5%float); ("RMSE", 0.5%float); ("MSE", 0.25%float); ("R2", np_nan)].
Proof.
  exact (evaluate_metrics_other_mode_is_regression
           "Classification" one_label one_prediction ltac:(discriminate)).
Defined.

Lemma on_test_epoch_end_failure_keeps_state_witness :
  List.length (test_step_outputs (on_test_epoch_end model1_no_checkpoint).2) = 2%nat /\
  files (on_test_epoch_end model1_no_checkpoint).2 = ∅.
Proof.
  destruct (on_test_epoch_end model1_no_checkpoint) as [[r|e] m'] eqn:E.
  - vm_compute in E. discriminate E.
  - destruct (on_test_epoch_end_failure_keeps_state _ _ _ E) as (Hout & _ & _ & Hfiles & _).
    cbn [snd]. rewrite Hout, Hfiles. split; reflexivity.
Defined.

Lemma on_test_epoch_end_without_checkpoint_witness :
  (on_test_epoch_end model1_no_checkpoint).1 =
    Raise (TypeError "expected str, bytes or os.PathLike object, not NoneType") /\
  test_step_outputs (on_test_epoch_end model1_no_checkpoint).2 = test_step_outputs model1.
Proof.
  destruct (on_test_epoch_end model1) as [[r|e] m'] eqn:E.
  - pose proof (on_test_epoch_end_without_checkpoint _ _ _ E) as H. cbn zeta in H.
    unfold model1_no_checkpoint. rewrite H. split; reflexivity.
  - vm_compute in E. discriminate E.
Defined.

Lemma on_test_epoch_end_writes_one_file_witness :
  files (on_test_epoch_end model1).2 !! "runs/v1/metrics.json" =
    Some (JsonDump (metrics_loop
                      (match metrics_table "regression" [1; 2.5; 3]%float [1; 2; 3]%float with
                       | Ok table => table
                       | Raise _ => []
                       end) []) 4).
Proof.
  destruct (on_test_epoch_end model1) as [[r|e] m'] eqn:E.
  - destruct (on_test_epoch_end_writes_one_file _ _ _ E) as (ckpt & Hckpt & Hfile & _ & _).
    injection Hckpt as <-. cbn [snd]. cbn zeta in Hfile.
    change (os_path_join (os_path_dirname "runs/v1/last.ckpt") "metrics.json")
      with "runs/v1/metrics.json" in Hfile.
    rewrite Hfile. vm_compute in E. injection E as <- _. reflexivity.
  - vm_compute in E. discriminate E.
Defined.

Lemma on_test_epoch_end_log_entries_witness :
  exists r m',
    on_test_epoch_end model1 = (Ok r, m') /\
    test_loss r = loss r /\
    dict_get (log r) "test_loss" = Some (loss r) /\
    dict_get (log r) "finetune" = Some (loss r).
Proof.
  destruct (on_test_epoch_end model1) as [[r|e] m'] eqn:E;
    [| vm_compute in E; discriminate E].
  destruct (on_test_epoch_end_log_entries _ _ _ E) as (Hsame & _).
  exists r, m'. split; [reflexivity |]. split; [exact Hsame |].
  vm_compute in E. injection E as <- _. split; reflexivity.
Defined.

Lemma load_model_weights_failures_witness :
  load_model_weights "missing.ckpt" finetune_params =
    (Raise (OSError "No such file or directory"), finetune_params) /\
  load_model_weights "broken.ckpt" finetune_params =
    (Raise (KeyError "state_dict"), finetune_params).
Proof.
  split.
  - exact (proj1 (load_model_weights_failures "missing.ckpt" finetune_params)
             _ eq_refl).
  - exact (proj2 (load_model_weights_failures "broken.ckpt" finetune_params)
             _ eq_refl eq_refl).
Defined.

Lemma on_test_epoch_end_returns_iff_witness :
  (exists r m', on_test_epoch_end model1 = (Ok r, m')) /\
  ~ (exists r m', on_test_epoch_end model0 = (Ok r, m')).
Proof.
  split.
  - apply (proj2 (on_test_epoch_end_returns_iff model1)).
    eexists _, _, _, _, _, _, _, _. repeat split; reflexivity.
  - intros (preds & labs & ap & al & _ & _ & _ & _ & H1 & H2 & _)%on_test_epoch_end_returns_iff.
    vm_compute in H1. injection H1 as <-. discriminate H2.
Defined.

Lemma test_pass_evaluates_concatenation_witness :
  exists r m2,
    on_test_epoch_end model1 = (Ok r, m2) /\
    evaluate_metrics "regression" [1; 2.5; 3]%float [1; 2; 3]%float = Ok (metrics r).
Proof.
  destruct (test_steps (T := torch) (MM := molbert_model) [batch1; batch2] 0 model0)
    as [[outs|e] m1] eqn:Esteps;
    [| vm_compute in Esteps; discriminate Esteps].
  assert (Hm1 : m1 = model1) by (unfold model1; by rewrite Esteps).
  destruct (on_test_epoch_end m1) as [[r|e] m2] eqn:Eend;
    [| rewrite Hm1 in Eend; vm_compute in Eend; discriminate Eend].
  assert (Hnil : test_step_outputs model0 = []) by reflexivity.
  destruct (test_pass_evaluates_concatenation _ _ _ _ _ _ _ Hnil Esteps Eend)
    as (preds & labs & ap & al & Hp & Hl & Hap & Hal & Hmetrics & _).
  exists r, m2. rewrite <- Hm1. split; [exact Eend |].
  vm_compute in Hp. injection Hp as <-. vm_compute in Hl. injection Hl as <-.
  vm_compute in Hap. injection Hap as <-. vm_compute in Hal. injection Hal as <-.
  exact Hmetrics.
Defined.

Lemma load_model_weights_partial_match_witness :
  (load_model_weights "pretrained.ckpt" finetune_params).2 =
    {["encoder.weight" := [0.5; 0.25]%float; "finetune_head.weight" := [1]%float]}.
Proof.
  destruct (load_model_weights "pretrained.ckpt" finetune_params) as [[model|e] params']
    eqn:E; [| vm_compute in E; discriminate E].
  destruct (load_model_weights_partial_match _ _ _ _ E)
    as (_ & checkpoint & sd & Hload & Hsd & _ & Hlook).
  vm_compute in Hload. injection Hload as <-.
  vm_compute in Hsd. injection Hsd as <-.
  cbn [snd]. apply map_eq. intros k. rewrite Hlook.
  destruct (decide (k = "encoder.weight")) as [->|H1]; [by vm_compute |].
  destruct (decide (k = "finetune_head.weight")) as [->|H2]; [by vm_compute |].
  unfold finetune_params.
  by rewrite !lookup_insert_ne, !lookup_singleton_ne by done.
Defined.

Lemma load_model_weights_no_shared_key_witness :
  load_model_weights "pretrained.ckpt" head_params = (Ok head_params, head_params).
Proof.
  eapply load_model_weights_no_shared_key; [reflexivity | reflexivity |].
  intros k [param Hk]. unfold head_params in Hk.
  apply lookup_singleton_Some in Hk as [<- _]. by vm_compute.
Defined.

Lemma test_dataloader_small_single_batch_witness :
  batches (test_dataloader datasets0 hparams0) 3 = [[0; 1; 2]]%nat.
Proof.
  apply (test_dataloader_small_single_batch datasets0 hparams0 3). lia.
Defined.

(** A pass over three examples: no NaN among the metrics, and the mapping
    read back compares equal. *)
Lemma metrics_json_round_trip_witness :
  exists r m' parsed,
    on_test_epoch_end model1 = (Ok r, m') /\
    files m' !! "runs/v1/metrics.json" = Some (JsonDump (metrics r) 4) /\
    json_load_file (files m') "runs/v1/metrics.json" = Ok parsed /\
    py_dict_eq parsed (metrics r) = true.
Proof.
  destruct (on_test_epoch_end model1) as [[r|e] m'] eqn:E;
    [| vm_compute in E; discriminate E].
  destruct (metrics_json_round_trip _ _ _ E)
    as (ckpt & al & ap & parsed & Hckpt & _ & Hfile & Hload & _ & _ & Heq).
  injection Hckpt as <-.
  change (os_path_join (os_path_dirname "runs/v1/last.ckpt") "metrics.json")
    with "runs/v1/metrics.json" in Hfile, Hload.
  exists r, m', parsed. split; [reflexivity |]. split; [exact Hfile |].
  split; [exact Hload |]. apply Heq. intros name v Hin.
  vm_compute in E. injection E as <- _. cbn [metrics] in Hin.
  repeat (apply elem_of_cons in Hin as [[= -> ->] | Hin]; [reflexivity |]).
  by apply elem_of_nil in Hin.
Defined.

(** C3 (fails on the code): a pass over one example.  The R2 score needs
    two, so its metric is NaN; [metrics.json] holds the dump of the
    returned mapping, and the mapping read back does not compare equal to
    the one [evaluate_metrics] returned. *)
Lemma metrics_json_round_trip_fails_on_nan :
  exists r m' parsed,
    on_test_epoch_end model_one = (Ok r, m') /\
    evaluate_metrics "regression" [2.5]%float [2]%float = Ok (metrics r) /\
    dict_get (metrics r) "R2" = Some np_nan /\
    files m' !! "runs/v1/metrics.json" = Some (JsonDump (metrics r) 4) /\
    json_load_file (files m') "runs/v1/metrics.json" = Ok parsed /\
    py_dict_eq parsed (metrics r) = false.
Proof.
  destruct (on_test_epoch_end model_one) as [[r|e] m'] eqn:E;
    [| vm_compute in E; discriminate E].
  exists r, m', (metrics r). split; [reflexivity |].
  vm_compute in E. injection E as <- <-.
  repeat split; by vm_compute.
Qed.

End MoreConcreteRuns.
